(** * Kreo Assist: display-state model of the caregiver screens

    A shallow embedding of the logic of the three screens of the Expo
    application ([frontend/app/index.tsx], [frontend/app/alert.tsx] and the
    event-log screen): the status card of the home screen, the refresh
    routine and its timer, the acknowledge handler of the alert screen and
    the relative-time formatter of the event log.

    React state is a record, a handler is a program in a small state and
    exception monad that also records the effects it performs (requests,
    console output, dialogs), and the platform pieces the handlers rely on
    (property lookup on an object literal, [setInterval], [try]/[catch]/
    [finally]) are modelled next to them. *)

From Stdlib Require Import ZArith Lia String Ascii List DecimalString.
From stdpp Require Import base strings gmap list.
Import ListNotations.

Local Open Scope string_scope.

(** ** JavaScript values and property lookup *)

Module Js.

(** The values a property read on [STATUS_COLORS] can produce. *)
Inductive JsValue : Type :=
| JUndefined
| JString (s : string)
| JFunction (name : string)
| JObject (name : string).

(** ToBoolean: [undefined] and the empty string are falsy, objects and
    functions are truthy. *)
Definition truthy (v : JsValue) : bool :=
  match v with
  | JUndefined => false
  | JString s => negb (String.eqb s "")
  | JFunction _ => true
  | JObject _ => true
  end.

(** [a || b] *)
Definition or (a b : JsValue) : JsValue := if truthy a then a else b.

(** The properties every object literal inherits from [Object.prototype]
    (ECMAScript, with the Annex B accessors). *)
Definition Object_prototype : gmap string JsValue :=
  list_to_map
    [ ("constructor", JFunction "Object");
      ("hasOwnProperty", JFunction "hasOwnProperty");
      ("isPrototypeOf", JFunction "isPrototypeOf");
      ("propertyIsEnumerable", JFunction "propertyIsEnumerable");
      ("toLocaleString", JFunction "toLocaleString");
      ("toString", JFunction "toString");
      ("valueOf", JFunction "valueOf");
      ("__defineGetter__", JFunction "__defineGetter__");
      ("__defineSetter__", JFunction "__defineSetter__");
      ("__lookupGetter__", JFunction "__lookupGetter__");
      ("__lookupSetter__", JFunction "__lookupSetter__");
      ("__proto__", JObject "Object.prototype") ].

(** [obj[key]] for an object literal whose own properties are all
    strings: own properties first, then the prototype. *)
Definition get (own : gmap string string) (key : string) : JsValue :=
  match own !! key with
  | Some v => JString v
  | None =>
      match Object_prototype !! key with
      | Some v => v
      | None => JUndefined
      end
  end.

(** Template-literal conversion of an integral number. *)
Definition number_to_string (n : Z) : string :=
  NilZero.string_of_int (Z.to_int n).

End Js.

(** ** Effects of a handler

    A handler runs against the React state of its screen and leaves a
    chronological trace of what it did to the outside: the requests it
    sent, what it wrote to the console, the dialogs it opened and the
    navigation it asked for. An awaited promise either fulfils with a value
    or rejects; the rejection is thrown at the [await]. *)

Module Eff.

Inductive Method : Type := GET | POST.

(** What pressing a dialog button runs. *)
Inductive Action : Type := Dismiss | RouterBack.

Inductive Effect : Type :=
| Request (method : Method) (path : string) (body : list (string * string))
| ConsoleError (message : string) (error : string)
| Dialog (title : string) (message : string) (buttons : list (string * Action))
| NavigateBack.

Inductive Outcome (A : Type) : Type :=
| Fulfilled (a : A)
| Rejected (error : string).
Arguments Fulfilled {A} a.
Arguments Rejected {A} error.

Definition rejected {A : Type} (o : Outcome A) : bool :=
  match o with
  | Fulfilled _ => false
  | Rejected _ => true
  end.

Record World (St : Type) : Type := mkWorld {
  ui : St;
  trace : list Effect
}.
Arguments mkWorld {St} ui trace.
Arguments ui {St} w.
Arguments trace {St} w.

Inductive Completion (A : Type) : Type :=
| Normal (a : A)
| Throw (error : string).
Arguments Normal {A} a.
Arguments Throw {A} error.

Definition Prog (St A : Type) : Type := World St -> Completion A * World St.

Definition ret {St A : Type} (a : A) : Prog St A := fun w => (Normal a, w).

Definition bind {St A B : Type} (m : Prog St A) (k : A -> Prog St B)
  : Prog St B :=
  fun w =>
    match m w with
    | (Normal a, w1) => k a w1
    | (Throw e, w1) => (Throw e, w1)
    end.

Definition throw {St A : Type} (e : string) : Prog St A :=
  fun w => (Throw e, w).

(** A state setter of [useState]. *)
Definition modify {St : Type} (f : St -> St) : Prog St unit :=
  fun w => (Normal tt, mkWorld (f (ui w)) (trace w)).

Definition emit {St : Type} (e : Effect) : Prog St unit :=
  fun w => (Normal tt, mkWorld (ui w) (trace w ++ [e])).

(** [await p]: the value of a fulfilled promise, a throw for a rejected
    one. *)
Definition await {St A : Type} (o : Outcome A) : Prog St A :=
  match o with
  | Fulfilled a => ret a
  | Rejected e => throw e
  end.

(** [try { body } catch (error) { handler } finally { final }] *)
Definition try_catch_finally {St : Type}
    (body : Prog St unit) (handler : string -> Prog St unit)
    (final : Prog St unit) : Prog St unit :=
  fun w =>
    let '(c1, w1) := body w in
    let '(c2, w2) :=
      match c1 with
      | Normal _ => (c1, w1)
      | Throw e => handler e w1
      end in
    let '(c3, w3) := final w2 in
    match c3 with
    | Normal _ => (c2, w3)
    | Throw e => (Throw e, w3)
    end.

Definition console_error {St : Type} (message error : string)
  : Prog St unit :=
  emit (ConsoleError message error).

(** The state a program leaves, and whether it returned. *)
Definition exec {St A : Type} (m : Prog St A) (w : World St) : World St :=
  snd (m w).

Definition returns {St A : Type} (m : Prog St A) (w : World St) : bool :=
  match fst (m w) with
  | Normal _ => true
  | Throw _ => false
  end.

(** The requests, dialogs and console lines among the effects. *)
Definition is_request (e : Effect) : bool :=
  match e with Request _ _ _ => true | _ => false end.

Definition is_dialog (e : Effect) : bool :=
  match e with Dialog _ _ _ => true | _ => false end.

Definition is_console_error (e : Effect) : bool :=
  match e with ConsoleError _ _ => true | _ => false end.

End Eff.

(** Programs use the monad notation of stdpp: [x ← m; k] and [m;; k]. *)
#[export] Instance Prog_ret {St : Type} : MRet (Eff.Prog St) :=
  fun A a => Eff.ret a.
#[export] Instance Prog_bind {St : Type} : MBind (Eff.Prog St) :=
  fun A B k m => Eff.bind m k.

(** ** Entities of the backend API *)

Module Api.

(** [interface Alert], declared alike by the home and the alert screen. *)
Record Alert : Type := mkAlert {
  id : string;
  type : string;
  alert_description : string;
  timestamp : string;
  acknowledged : bool
}.

(** The response body is stored as it is parsed, so the classification
    may be absent at run time: [None] is [undefined] or [null]. *)
Record SystemStatus : Type := mkSystemStatus {
  current_status : option string;
  last_updated : string;
  description : option string
}.

Record ConnectionStatus : Type := mkConnectionStatus {
  is_connected : bool;
  last_ping : string
}.

(** The part of a [fetch] response the screens look at. *)
Record Response : Type := mkResponse {
  http_status : Z
}.

Definition ok (r : Response) : bool :=
  (200 <=? http_status r)%Z && (http_status r <=? 299)%Z.

End Api.

(** ** Home screen ([frontend/app/index.tsx]) *)

Module Home.

Import Js Eff Api.

Definition STATUS_COLORS : gmap string string :=
  <["SAFE" := "#34C759"]>
    (<["WARNING" := "#FFCC00"]>
       (<["EMERGENCY" := "#FF3B30"]> ∅)).

(** The [useState] cells of [HomeScreen], with their initial values. *)
Record State : Type := mkState {
  status : option SystemStatus;
  connection : option ConnectionStatus;
  latestAlert : option Alert;
  loading : bool;
  refreshing : bool
}.

Definition initial : State :=
  {| status := None; connection := None; latestAlert := None;
     loading := true; refreshing := false |}.

Definition setStatus (v : option SystemStatus) : Prog State unit :=
  modify (fun s => mkState v (connection s) (latestAlert s)
                           (loading s) (refreshing s)).

Definition setConnection (v : option ConnectionStatus) : Prog State unit :=
  modify (fun s => mkState (status s) v (latestAlert s)
                           (loading s) (refreshing s)).

Definition setLatestAlert (v : option Alert) : Prog State unit :=
  modify (fun s => mkState (status s) (connection s) v
                           (loading s) (refreshing s)).

Definition setLoading (v : bool) : Prog State unit :=
  modify (fun s => mkState (status s) (connection s) (latestAlert s)
                           v (refreshing s)).

Definition setRefreshing (v : bool) : Prog State unit :=
  modify (fun s => mkState (status s) (connection s) (latestAlert s)
                           (loading s) v).

(** What the backend answers to the three reads of one refresh, each the
    outcome of [await fetch(...)] followed by [await res.json()]: rejected
    when the request or the parsing of its body fails. A body of [null] is
    [Fulfilled None]. *)
Record Responses : Type := mkResponses {
  res_status : Outcome (option SystemStatus);
  res_connection : Outcome (option ConnectionStatus);
  res_alert : Outcome (option Alert)
}.

(** [await fetch(`${API_BASE}${path}`)] and [await res.json()]. *)
Definition fetch_json {A : Type} (path : string) (o : Outcome A)
  : Prog State A :=
  emit (Request GET path []);; await o.

Definition fetchData (net : Responses) : Prog State unit :=
  try_catch_finally
    (statusData ← fetch_json "/status" (res_status net);
     setStatus statusData;;
     connData ← fetch_json "/connection" (res_connection net);
     setConnection connData;;
     alertData ← fetch_json "/alerts/latest" (res_alert net);
     setLatestAlert alertData)
    (fun error => console_error "Error fetching data:" error)
    (setLoading false;; setRefreshing false).

Definition onRefresh (net : Responses) : Prog State unit :=
  setRefreshing true;; fetchData net.

Definition getStatusColor (statusText : string) : JsValue :=
  or (get STATUS_COLORS statusText) (JString "#999999").

(** [status?.current_status || 'SAFE'] *)
Definition currentStatus (status : option SystemStatus) : string :=
  match status ≫= current_status with
  | Some s => if String.eqb s "" then "SAFE" else s
  | None => "SAFE"
  end.

Definition statusColor (status : option SystemStatus) : JsValue :=
  getStatusColor (currentStatus status).

(** The name given to the icon of the status badge. *)
Definition statusIcon (currentStatus : string) : string :=
  if String.eqb currentStatus "SAFE" then "checkmark-circle"
  else if String.eqb currentStatus "WARNING" then "warning"
  else "alert-circle".

(** What the status card shows for a held snapshot. *)
Record StatusCard : Type := mkStatusCard {
  card_text : string;
  card_color : JsValue;
  card_icon : string
}.

Definition statusCard (status : option SystemStatus) : StatusCard :=
  {| card_text := currentStatus status;
     card_color := statusColor status;
     card_icon := statusIcon (currentStatus status) |}.

(** What [HomeScreen] returns: the spinner while [loading], otherwise the
    connection line, the status card and the alert preview. *)
Inductive View : Type :=
| LoadingView
| MainView (connected : bool) (card : StatusCard) (preview : option Alert).

Definition render (s : State) : View :=
  if loading s then LoadingView
  else MainView
         (match connection s with
          | Some c => is_connected c
          | None => false
          end)
         (statusCard (status s))
         (latestAlert s).

(** The classifications the backend documents. *)
Definition recognized (s : string) : Prop :=
  s = "SAFE" \/ s = "WARNING" \/ s = "EMERGENCY".

(** A classification the screen treats as not given: the snapshot or its
    field is absent, or the field is the empty string. *)
Definition missing (status : option SystemStatus) : Prop :=
  status ≫= current_status = None \/ status ≫= current_status = Some "".

(** Exactly one of the three reads of a refresh fails. *)
Definition one_rejected (net : Responses) : bool :=
  match rejected (res_status net), rejected (res_connection net),
        rejected (res_alert net) with
  | true, false, false => true
  | false, true, false => true
  | false, false, true => true
  | _, _, _ => false
  end.

(** The error a refresh catches: that of the first rejected read, after
    which no further read is made. *)
Definition first_error (net : Responses) : option string :=
  match res_status net, res_connection net, res_alert net with
  | Rejected e, _, _ => Some e
  | Fulfilled _, Rejected e, _ => Some e
  | Fulfilled _, Fulfilled _, Rejected e => Some e
  | Fulfilled _, Fulfilled _, Fulfilled _ => None
  end.

(** A run of refreshes, one after the other. *)
Fixpoint refreshes (nets : list Responses) (w : World State) : World State :=
  match nets with
  | [] => w
  | net :: rest => refreshes rest (exec (fetchData net) w)
  end.

End Home.

(** ** Alert screen ([frontend/app/alert.tsx]) *)

Module AlertScreen.

Import Eff Api.

(** The [useState] cells of [AlertScreen]. *)
Record State : Type := mkState {
  alert : option Alert;
  loading : bool;
  acknowledging : bool
}.

Definition initial : State :=
  {| alert := None; loading := true; acknowledging := false |}.

Definition setAlert (v : option Alert) : Prog State unit :=
  modify (fun s => mkState v (loading s) (acknowledging s)).

Definition setLoading (v : bool) : Prog State unit :=
  modify (fun s => mkState (alert s) v (acknowledging s)).

Definition setAcknowledging (v : bool) : Prog State unit :=
  modify (fun s => mkState (alert s) (loading s) v).

(** [RNAlert.alert(title, message, buttons)]; without buttons the dialog
    has the one button that closes it. *)
Definition RNAlert_alert (title message : string)
    (buttons : list (string * Action)) : Prog State unit :=
  emit (Dialog title message
          (match buttons with
           | [] => [("OK", Dismiss)]
           | _ => buttons
           end)).

Definition fetchLatestAlert (net : Outcome (option Alert))
  : Prog State unit :=
  try_catch_finally
    (emit (Request GET "/alerts/latest" []);;
     data ← await net;
     setAlert data)
    (fun error => console_error "Error fetching alert:" error)
    (setLoading false).

(** [handleAcknowledge], with the outcome of its one [await fetch(...)].
    The handler reads [alert] from the state it was rendered with. *)
Definition handleAcknowledge (net : Outcome Response) : Prog State unit :=
  fun w =>
    match alert (ui w) with
    | None => ret tt w
    | Some a =>
        (setAcknowledging true;;
         try_catch_finally
           (emit (Request POST "/alerts/acknowledge" [("alert_id", id a)]);;
            response ← await net;
            if ok response
            then RNAlert_alert "Alert Acknowledged"
                   "The alert has been marked as acknowledged."
                   [("OK", RouterBack)]
            else ret tt)
           (fun error =>
              console_error "Error acknowledging alert:" error;;
              RNAlert_alert "Error" "Failed to acknowledge alert" [])
           (setAcknowledging false)) w
    end.

(** Pressing the button [label] of a dialog runs what the button holds;
    [router.back()] is the one thing a button of this screen does. *)
Definition press (label : string) (e : Effect) : Prog State unit :=
  match e with
  | Dialog _ _ buttons =>
      match List.find (fun b => String.eqb (fst b) label) buttons with
      | Some (_, RouterBack) => emit NavigateBack
      | _ => ret tt
      end
  | _ => ret tt
  end.

(** What [AlertScreen] returns. The details view carries the acknowledge
    button, the other two views have none. *)
Inductive View : Type :=
| LoadingView
| NoAlertView
| DetailsView (a : Alert) (isEmergency : bool) (acknowledgeDisabled : bool).

Definition render (s : State) : View :=
  if loading s then LoadingView
  else match alert s with
       | None => NoAlertView
       | Some a =>
           DetailsView a (String.eqb (type a) "emergency") (acknowledging s)
       end.

Definition has_acknowledge_button (v : View) : bool :=
  match v with
  | DetailsView _ _ _ => true
  | _ => false
  end.

(** A failed acknowledge: the request is rejected, or it is answered with
    a status outside 200..299. *)
Definition failed (net : Outcome Response) : bool :=
  match net with
  | Rejected _ => true
  | Fulfilled r => negb (ok r)
  end.

(** A run of fetches of the latest alert, one after the other. *)
Fixpoint fetches (nets : list (Outcome (option Alert))) (w : World State)
  : World State :=
  match nets with
  | [] => w
  | net :: rest => fetches rest (exec (fetchLatestAlert net) w)
  end.

End AlertScreen.

(** ** Event log screen: relative time *)

Module EventLog.

Import Js.

Section Format.

(** [new Date(timestamp).getTime()]: the milliseconds since the epoch, or
    [None] for the NaN of a timestamp that does not parse. *)
Variable Date_getTime : string -> option Z.

(** [date.toLocaleDateString('en-US', { month: 'short', day: 'numeric',
    hour: '2-digit', minute: '2-digit' })] on a time value. *)
Variable toLocaleDateString : option Z -> string.

(** [formatDateTime] of the event log, with the reading [now] of the clock
    that [new Date()] takes. Every comparison with NaN is false, so a
    timestamp that does not parse reaches the last [return]. *)
Definition formatDateTime (now : Z) (timestamp : string) : string :=
  let date := Date_getTime timestamp in
  match date with
  | None => toLocaleDateString date
  | Some t =>
      let diff := (now - t)%Z in
      let minutes := (diff / 60000)%Z in
      let hours := (minutes / 60)%Z in
      let days := (hours / 24)%Z in
      if (minutes <? 1)%Z then "Just now"
      else if (minutes <? 60)%Z then number_to_string minutes +:+ "m ago"
      else if (hours <? 24)%Z then number_to_string hours +:+ "h ago"
      else if (days <? 7)%Z then number_to_string days +:+ "d ago"
      else toLocaleDateString date
  end.

End Format.

(** The text the specification gives for an elapsed time in milliseconds,
    with [absolute] for the short date: the buckets are cut on the elapsed
    time itself. *)
Definition spec_relative_time (absolute : string) (elapsed : Z) : string :=
  if (elapsed <? 60000)%Z then "just now"
  else if (elapsed <? 60 * 60000)%Z
       then number_to_string (elapsed / 60000) +:+ "m ago"
  else if (elapsed <? 24 * 60 * 60000)%Z
       then number_to_string (elapsed / (60 * 60000)) +:+ "h ago"
  else if (elapsed <? 7 * 24 * 60 * 60000)%Z
       then number_to_string (elapsed / (24 * 60 * 60000)) +:+ "d ago"
  else absolute.

End EventLog.

(** ** The refresh timer of the home screen

    [useEffect(() => { fetchData(); const interval = setInterval(fetchData,
    30000); return () => clearInterval(interval); }, [])]: the effect runs
    once when the screen mounts and its cleanup once when the screen is torn
    down. Time is counted in milliseconds; an interval timer fires each
    time its delay has elapsed and is armed again. *)

Module Timers.

Inductive Callback : Type := FetchData.

Record Timer : Type := mkTimer {
  callback : Callback;
  delay : Z;
  due : Z
}.

Record Runtime : Type := mkRuntime {
  clock : Z;
  timers : list (nat * Timer);
  next_id : nat;
  calls : list (Z * Callback);
  cleanup : option nat
}.

(** A runtime with no timer set, at time [t0]. *)
Definition boot (t0 : Z) : Runtime :=
  {| clock := t0; timers := []; next_id := 0; calls := []; cleanup := None |}.

Definition call (c : Callback) (r : Runtime) : Runtime :=
  mkRuntime (clock r) (timers r) (next_id r)
            (calls r ++ [(clock r, c)]) (cleanup r).

Definition setInterval (c : Callback) (ms : Z) (r : Runtime)
  : nat * Runtime :=
  (next_id r,
   mkRuntime (clock r)
             (timers r ++ [(next_id r, mkTimer c ms (clock r + ms)%Z)])
             (S (next_id r)) (calls r) (cleanup r)).

Definition clearInterval (i : nat) (r : Runtime) : Runtime :=
  mkRuntime (clock r)
            (List.filter (fun t => negb (Nat.eqb (fst t) i)) (timers r))
            (next_id r) (calls r) (cleanup r).

(** The effect of [HomeScreen], run when the screen mounts. *)
Definition mount (r : Runtime) : Runtime :=
  let r1 := call FetchData r in
  let '(interval, r2) := setInterval FetchData 30000 r1 in
  mkRuntime (clock r2) (timers r2) (next_id r2) (calls r2) (Some interval).

(** The cleanup the effect returned, run when the screen is torn down. *)
Definition unmount (r : Runtime) : Runtime :=
  match cleanup r with
  | Some interval =>
      let r1 := clearInterval interval r in
      mkRuntime (clock r1) (timers r1) (next_id r1) (calls r1) None
  | None => r
  end.

Definition fired (now : Z) (t : nat * Timer) : list (Z * Callback) :=
  if (due (snd t) <=? now)%Z then [(now, callback (snd t))] else [].

Definition rearm (now : Z) (t : nat * Timer) : nat * Timer :=
  if (due (snd t) <=? now)%Z
  then (fst t, mkTimer (callback (snd t)) (delay (snd t))
                       (due (snd t) + delay (snd t))%Z)
  else t.

(** One millisecond passes: the timers that are due run their callback
    and are armed again. *)
Definition tick (r : Runtime) : Runtime :=
  let now := (clock r + 1)%Z in
  mkRuntime now (List.map (rearm now) (timers r)) (next_id r)
            (calls r ++ List.flat_map (fired now) (timers r)) (cleanup r).

Fixpoint elapse (ms : nat) (r : Runtime) : Runtime :=
  match ms with
  | O => r
  | S n => elapse n (tick r)
  end.

(** The instants of the first call and of the [k] timer calls that follow
    a mount at [t0]. *)
Fixpoint refresh_times (t0 : Z) (k : nat) : list Z :=
  match k with
  | O => [t0]
  | S k' => refresh_times t0 k' ++ [(t0 + 30000 * Z.of_nat k)%Z]
  end.

End Timers.

(** ** Home screen: the connection line, the alert preview and the demo
    buttons *)

Module HomeDetails.

Import Eff Api Home.

(** The connection card: icon, colour and text follow
    [connection?.is_connected], and the line with the last ping is there
    when [connection?.last_ping] is truthy. *)
Record ConnectionCard : Type := mkConnectionCard {
  conn_icon : string;
  conn_color : string;
  conn_text : string;
  conn_last_ping : option string
}.

Definition connectionCard (connection : option ConnectionStatus)
  : ConnectionCard :=
  let connected :=
    match connection with
    | Some c => is_connected c
    | None => false
    end in
  {| conn_icon := if connected then "radio" else "radio-outline";
     conn_color := if connected then "#34C759" else "#FF3B30";
     conn_text := if connected then "Connected" else "Disconnected";
     conn_last_ping :=
       match connection with
       | Some c =>
           if String.eqb (last_ping c) "" then None else Some (last_ping c)
       | None => None
       end |}.

(** The colour of the badge of the alert preview. *)
Definition previewBadgeColor (latestAlert : Alert) : string :=
  if String.eqb (type latestAlert) "emergency" then "#FF3B30" else "#FFCC00".

(** A demo button: [await fetch(`${API_BASE}${path}`, { method: 'POST' });
    fetchData();], in a handler without [try]. The answer of the POST is
    not looked at. *)
Definition simulate (path : string) (post : Outcome Response)
    (net : Responses) : Prog State unit :=
  emit (Request POST path []);;
  _ ← await post;
  fetchData net.

(** The reads of a refresh, in the order they are made. *)
Definition reads : list Effect :=
  [Request GET "/status" []; Request GET "/connection" [];
   Request GET "/alerts/latest" []].

(** How many reads a refresh makes: up to the first rejected one. *)
Definition reads_made (net : Responses) : nat :=
  match res_status net, res_connection net with
  | Rejected _, _ => 1
  | Fulfilled _, Rejected _ => 2
  | Fulfilled _, Fulfilled _ => 3
  end.

End HomeDetails.

(** ** Alert screen: the details view and the two halves of the
    acknowledge handler *)

Module AlertDetails.

Import Eff Api AlertScreen.

Definition isEmergency (alert : Alert) : bool :=
  String.eqb (type alert) "emergency".

Definition alertColor (alert : Alert) : string :=
  if isEmergency alert then "#FF3B30" else "#FFCC00".

Definition backgroundColor (alert : Alert) : string :=
  if isEmergency alert then "#FFF5F5" else "#FFFEF5".

Definition alertIcon (alert : Alert) : string :=
  if isEmergency alert then "alert-circle" else "warning".

(** The card "Emergency Response" is rendered under [isEmergency &&]. *)
Definition showsInstructions (alert : Alert) : bool := isEmergency alert.

(** [handleAcknowledge] up to its [await]: the guard, the flag and the
    request. The result tells whether the handler goes on. *)
Definition handleAcknowledge_sent : Prog State bool :=
  fun w =>
    match alert (ui w) with
    | None => ret false w
    | Some a =>
        (setAcknowledging true;;
         emit (Request POST "/alerts/acknowledge" [("alert_id", id a)]);;
         ret true) w
    end.

(** [handleAcknowledge] from the moment its request settles. *)
Definition handleAcknowledge_settled (net : Outcome Response)
  : Prog State unit :=
  try_catch_finally
    (response ← await net;
     if ok response
     then RNAlert_alert "Alert Acknowledged"
            "The alert has been marked as acknowledged."
            [("OK", RouterBack)]
     else ret tt)
    (fun error =>
       console_error "Error acknowledging alert:" error;;
       RNAlert_alert "Error" "Failed to acknowledge alert" [])
    (setAcknowledging false).

(** The handler invoked once per outcome of a list, one invocation after
    the other. *)
Fixpoint acknowledges (nets : list (Outcome Response)) (w : World State)
  : World State :=
  match nets with
  | [] => w
  | net :: rest => acknowledges rest (exec (handleAcknowledge net) w)
  end.

(** A dialog one of whose buttons navigates back. *)
Definition leads_back (e : Effect) : bool :=
  match e with
  | Dialog _ _ buttons =>
      List.existsb
        (fun b => match snd b with RouterBack => true | Dismiss => false end)
        buttons
  | _ => false
  end.

End AlertDetails.

(** ** Event log screen: the list *)

Module EventScreen.

Import Js Eff.

(** [interface Event] *)
Record Event : Type := mkEvent {
  id : string;
  description : string;
  event_type : string;
  timestamp : string
}.

(** The [useState] cells of [EventLogScreen]. *)
Record State : Type := mkState {
  events : list Event;
  loading : bool;
  refreshing : bool
}.

Definition initial : State :=
  {| events := []; loading := true; refreshing := false |}.

Definition setEvents (v : list Event) : Prog State unit :=
  modify (fun s => mkState v (loading s) (refreshing s)).

Definition setLoading (v : bool) : Prog State unit :=
  modify (fun s => mkState (events s) v (refreshing s)).

Definition setRefreshing (v : bool) : Prog State unit :=
  modify (fun s => mkState (events s) (loading s) v).

(** [fetchEvents], with the outcome of its read: the array of the body,
    or a rejection of the request or of the parsing. *)
Definition fetchEvents (net : Outcome (list Event)) : Prog State unit :=
  try_catch_finally
    (emit (Request GET "/events" []);;
     data ← await net;
     setEvents data)
    (fun error => console_error "Error fetching events:" error)
    (setLoading false;; setRefreshing false).

Definition onRefresh (net : Outcome (list Event)) : Prog State unit :=
  setRefreshing true;; fetchEvents net.

Definition getEventIcon (eventType : string) : string :=
  if String.eqb eventType "alert" then "notifications"
  else if String.eqb eventType "status_change" then "swap-horizontal"
  else if String.eqb eventType "connection" then "radio"
  else "information-circle".

Definition getEventColor (eventType : string) : string :=
  if String.eqb eventType "alert" then "#FF3B30"
  else if String.eqb eventType "status_change" then "#007AFF"
  else if String.eqb eventType "connection" then "#34C759"
  else "#999".

(** The event types the two [switch] statements name. *)
Definition known_event_type (t : string) : Prop :=
  t = "alert" \/ t = "status_change" \/ t = "connection".

(** [s.replace(c, d)] for one-character strings [c] and [d]: the first
    occurrence is replaced, the others stay. *)
Fixpoint replace_first (c d : ascii) (s : string) : string :=
  match s with
  | EmptyString => EmptyString
  | String x rest =>
      if Ascii.eqb x c then String d rest
      else String x (replace_first c d rest)
  end.

(** The number of occurrences of a character. *)
Fixpoint occurrences (c : ascii) (s : string) : nat :=
  match s with
  | EmptyString => 0
  | String x rest =>
      (if Ascii.eqb x c then 1 else 0) + occurrences c rest
  end.

Section Rows.

Variable Date_getTime : string -> option Z.
Variable toLocaleDateString : option Z -> string.

(** [String.prototype.toUpperCase] *)
Variable toUpperCase : string -> string.

(** What a row of the list shows. *)
Record Row : Type := mkRow {
  row_key : string;
  row_color : string;
  row_icon : string;
  row_description : string;
  row_type : string;
  row_time : string
}.

(** [renderEvent], at the clock reading [now]. *)
Definition renderEvent (now : Z) (item : Event) : Row :=
  let eventColor := getEventColor (event_type item) in
  let eventIcon := getEventIcon (event_type item) in
  {| row_key := id item;
     row_color := eventColor;
     row_icon := eventIcon;
     row_description := description item;
     row_type := toUpperCase (replace_first "_" " " (event_type item));
     row_time :=
       EventLog.formatDateTime Date_getTime toLocaleDateString now
         (timestamp item) |}.

(** What [EventLogScreen] returns: the spinner, without the refresh button
    in the header; the notice of an empty log; or the list, which alone
    carries the pull-to-refresh control. *)
Inductive View : Type :=
| LoadingView
| EmptyView
| ListView (rows : list Row) (pull_refreshing : bool).

Definition render (now : Z) (s : State) : View :=
  if loading s then LoadingView
  else if Nat.eqb (List.length (events s)) 0 then EmptyView
       else ListView (List.map (renderEvent now) (events s)) (refreshing s).

End Rows.

End EventScreen.

(** ** Sample data *)

Module Samples.

Import Eff Api.

Definition alert_a1 : Alert :=
  {| id := "a1"; type := "emergency";
     alert_description := "Obstacle ahead";
     timestamp := "2026-01-01T10:00:00Z"; acknowledged := false |}.

Definition status_safe : SystemStatus :=
  {| current_status := Some "SAFE";
     last_updated := "2026-01-01T09:59:00Z"; description := None |}.

Definition status_warning : SystemStatus :=
  {| current_status := Some "WARNING";
     last_updated := "2026-01-01T10:00:30Z";
     description := Some "Obstacle detected" |}.

Definition connection_up : ConnectionStatus :=
  {| is_connected := true; last_ping := "2026-01-01T09:59:30Z" |}.

Definition connection_down : ConnectionStatus :=
  {| is_connected := false; last_ping := "2026-01-01T09:59:30Z" |}.

(** The home screen after a first refresh: SAFE, connected, no alert. *)
Definition home_calm : World Home.State :=
  mkWorld
    {| Home.status := Some status_safe;
       Home.connection := Some connection_up;
       Home.latestAlert := None;
       Home.loading := false; Home.refreshing := false |}
    [].

(** A refresh whose status and connection reads bring new values and
    whose read of the latest alert is rejected. *)
Definition alert_read_fails : Home.Responses :=
  {| Home.res_status := Fulfilled (Some status_warning);
     Home.res_connection := Fulfilled (Some connection_down);
     Home.res_alert := Rejected "Network request failed" |}.

(** The alert screen showing [alert_a1]. *)
Definition alert_shown : World AlertScreen.State :=
  mkWorld
    {| AlertScreen.alert := Some alert_a1;
       AlertScreen.loading := false;
       AlertScreen.acknowledging := false |}
    [].

(** A stand-in for the date parser and the locale formatter: every
    timestamp is the instant 0, and a date prints as its milliseconds. *)
Definition epoch_getTime (timestamp : string) : option Z := Some 0%Z.

Definition plain_date (t : option Z) : string :=
  match t with
  | Some ms => Js.number_to_string ms
  | None => "Invalid Date"
  end.

End Samples.

(** ** The fetch handlers, against the setters they are given

    The two fetch handlers written once for any state and any setters.
    Given the setters of [useState] they are the handlers of the screens;
    given setters that also keep every state they produce, they list the
    states a screen goes through while a fetch runs; given a cell that
    holds the parsed body as it came, they are the handlers on bodies of
    any shape. *)

Module Handlers.

Import Eff.

Section WithState.

Context {St : Type}.

(** [await fetch(`${API_BASE}${path}`)] and [await res.json()]. *)
Definition fetch_json {A : Type} (path : string) (o : Outcome A)
  : Prog St A :=
  emit (Request GET path []);; await o.

(** [fetchData] of the home screen. *)
Definition fetchData {S C A : Type}
    (setStatus : S -> Prog St unit)
    (setConnection : C -> Prog St unit)
    (setLatestAlert : A -> Prog St unit)
    (setLoading setRefreshing : bool -> Prog St unit)
    (res_status : Outcome S) (res_connection : Outcome C)
    (res_alert : Outcome A) : Prog St unit :=
  try_catch_finally
    (statusData ← fetch_json "/status" res_status;
     setStatus statusData;;
     connData ← fetch_json "/connection" res_connection;
     setConnection connData;;
     alertData ← fetch_json "/alerts/latest" res_alert;
     setLatestAlert alertData)
    (fun error => console_error "Error fetching data:" error)
    (setLoading false;; setRefreshing false).

(** [fetchLatestAlert] of the alert screen. *)
Definition fetchLatestAlert {A : Type}
    (setAlert : A -> Prog St unit) (setLoading : bool -> Prog St unit)
    (net : Outcome A) : Prog St unit :=
  try_catch_finally
    (emit (Request GET "/alerts/latest" []);;
     data ← await net;
     setAlert data)
    (fun error => console_error "Error fetching alert:" error)
    (setLoading false).

End WithState.

(** A state together with every state written so far, oldest first. *)
Record Recorded (St : Type) : Type := mkRecorded {
  current : St;
  written : list St
}.
Arguments mkRecorded {St} current written.
Arguments current {St} r.
Arguments written {St} r.

(** A setter that, besides setting, keeps the state it produced. *)
Definition recording {St : Type} (setter : Prog St unit)
  : Prog (Recorded St) unit :=
  fun w =>
    let '(c, w') := setter (mkWorld (current (ui w)) (trace w)) in
    (c, mkWorld (mkRecorded (ui w') (written (ui w) ++ [ui w']))
                (trace w')).

(** The states the home screen goes through during one refresh that
    starts in [s]: one state per call of a setter, in order. *)
Definition home_writes (net : Home.Responses) (s : Home.State)
  : list Home.State :=
  written
    (ui (exec
           (fetchData
              (fun v => recording (Home.setStatus v))
              (fun v => recording (Home.setConnection v))
              (fun v => recording (Home.setLatestAlert v))
              (fun v => recording (Home.setLoading v))
              (fun v => recording (Home.setRefreshing v))
              (Home.res_status net) (Home.res_connection net)
              (Home.res_alert net))
           (mkWorld (mkRecorded s []) []))).

(** The states the alert screen goes through during one fetch of the
    latest alert that starts in [s]. *)
Definition alert_writes (net : Outcome (option Api.Alert))
    (s : AlertScreen.State) : list AlertScreen.State :=
  written
    (ui (exec
           (fetchLatestAlert
              (fun v => recording (AlertScreen.setAlert v))
              (fun v => recording (AlertScreen.setLoading v))
              net)
           (mkWorld (mkRecorded s []) []))).

End Handlers.

(** ** Parsed bodies of any shape *)

Module Json.

(** What [res.json()] can give. Numbers are the integral ones. *)
#[warnings="-register-all"] Inductive Value : Type :=
| Null
| Bool (b : bool)
| Number (n : Z)
| Str (s : string)
| Arr (items : list Value)
| Obj (members : list (string * Value)).

(** ToBoolean. Arrays and objects are truthy, also when empty. *)
Definition truthy (v : Value) : bool :=
  match v with
  | Null => false
  | Bool b => b
  | Number n => negb (n =? 0)%Z
  | Str s => negb (String.eqb s "")
  | Arr _ => true
  | Obj _ => true
  end.

(** The member [key] of a parsed object; of a repeated key the last one
    counts. *)
Fixpoint lookup (key : string) (members : list (string * Value))
  : option Value :=
  match members with
  | [] => None
  | (k, v) :: rest =>
      match lookup key rest with
      | Some later => Some later
      | None => if String.eqb k key then Some v else None
      end
  end.

(** [v.key] on a value that is neither [null] nor [undefined], for a
    [key] that no prototype defines (as [type] and [description] are):
    the member of an object, [undefined] on anything else. *)
Definition member (key : string) (v : Value) : option Value :=
  match v with
  | Obj members => lookup key members
  | _ => None
  end.

End Json.

(** ** The alert screen on bodies of any shape

    The type annotations of the source are erased when it runs: the cell
    [alert] holds what [response.json()] gave. *)

Module RawAlertScreen.

Import Eff.

Record State : Type := mkState {
  alert : Json.Value;
  loading : bool;
  acknowledging : bool
}.

(** [useState<Alert | null>(null)], [useState(true)], [useState(false)] *)
Definition initial : State :=
  {| alert := Json.Null; loading := true; acknowledging := false |}.

Definition setAlert (v : Json.Value) : Prog State unit :=
  modify (fun s => mkState v (loading s) (acknowledging s)).

Definition setLoading (v : bool) : Prog State unit :=
  modify (fun s => mkState (alert s) v (acknowledging s)).

Definition fetchLatestAlert (net : Outcome Json.Value) : Prog State unit :=
  Handlers.fetchLatestAlert setAlert setLoading net.

(** What the details view is built from. *)
Inductive View : Type :=
| LoadingView
| NoAlertView
| DetailsView (isEmergency : bool) (type : string)
    (description : option Json.Value) (acknowledgeDisabled : bool).

(** The body of [AlertScreen] as it is evaluated. [alert.type ===
    'emergency'] is false for anything but that string, and
    [alert.type.toUpperCase()] throws a TypeError unless [alert.type] is a
    string: [undefined] has no properties, and a number, a boolean, an
    array or an object has no method [toUpperCase]. *)
Definition render (s : State) : Completion View :=
  if loading s then Normal LoadingView
  else if negb (Json.truthy (alert s)) then Normal NoAlertView
  else
    match Json.member "type" (alert s) with
    | Some (Json.Str type) =>
        Normal (DetailsView (String.eqb type "emergency") type
                  (Json.member "description" (alert s)) (acknowledging s))
    | _ => Throw "TypeError"
    end.

End RawAlertScreen.

(** ** More sample data *)

Module MoreSamples.

Import Eff Api.

(** A refresh all of whose reads are fulfilled: a warning, the device
    connected, and the alert [alert_a1]. *)
Definition all_fulfilled : Home.Responses :=
  {| Home.res_status := Fulfilled (Some Samples.status_warning);
     Home.res_connection := Fulfilled (Some Samples.connection_up);
     Home.res_alert := Fulfilled (Some Samples.alert_a1) |}.

(** The body of an answer 500 of the backend. *)
Definition error_body : Json.Value :=
  Json.Obj [("detail", Json.Str "Internal Server Error")].

(** A runtime in which another timer, of one second, is already set. *)
Definition busy_runtime : Timers.Runtime :=
  snd (Timers.setInterval Timers.FetchData 1000 (Timers.boot 0)).

End MoreSamples.

(** * Properties *)

(** ** The status card *)

Section StatusCardFacts.

Import Js Eff Api Home.

Lemma STATUS_COLORS_unrecognized (s : string) :
  ~ recognized s -> STATUS_COLORS !! s = None.
Proof.
  unfold recognized, STATUS_COLORS; intros H.
  rewrite !lookup_insert_ne by (intros <-; tauto).
  apply lookup_empty.
Qed.

Lemma getStatusColor_fallback (s : string) :
  ~ recognized s -> Object_prototype !! s = None ->
  getStatusColor s = JString "#999999".
Proof.
  intros Hs Hp. unfold getStatusColor, get.
  rewrite (STATUS_COLORS_unrecognized s Hs), Hp. reflexivity.
Qed.

Lemma currentStatus_nonempty (s lu : string) (d : option string) :
  s <> "" -> currentStatus (Some (mkSystemStatus (Some s) lu d)) = s.
Proof.
  intros Hs. unfold currentStatus; simpl.
  destruct (String.eqb_spec s ""); [contradiction | reflexivity].
Qed.

Lemma statusIcon_other (s : string) :
  ~ recognized s -> statusIcon s = "alert-circle".
Proof.
  unfold recognized, statusIcon; intros H.
  destruct (String.eqb_spec s "SAFE"); [tauto|].
  destruct (String.eqb_spec s "WARNING"); [tauto|].
  reflexivity.
Qed.

(** C1, as amended. A snapshot whose classification is missing (the
    snapshot or the field is absent, or the field is the empty string) is
    shown as SAFE: the text is "SAFE", the colour is the SAFE colour
    #34C759 and the icon is the SAFE icon. *)
Theorem C1_missing_classification_shows_SAFE (status : option SystemStatus) :
  missing status ->
  statusCard status =
    {| card_text := "SAFE";
       card_color := JString "#34C759";
       card_icon := "checkmark-circle" |}.
Proof.
  unfold missing, statusCard, statusColor, currentStatus.
  intros [-> | ->]; reflexivity.
Qed.

Lemma C1_missing_classification_shows_SAFE_witness :
  statusCard (Some (mkSystemStatus None "2026-01-01T00:00:00Z" None)) =
    {| card_text := "SAFE";
       card_color := JString "#34C759";
       card_icon := "checkmark-circle" |}.
Proof.
  apply (C1_missing_classification_shows_SAFE
           (Some (mkSystemStatus None "2026-01-01T00:00:00Z" None))).
  left; reflexivity.
Defined.

(** C1 as stated fails: the classification "UNKNOWN" is none of SAFE,
    WARNING and EMERGENCY, and the card shows it as received in the colour
    #999999: neither the text SAFE nor the SAFE colour. *)
Lemma C1_unrecognized_not_shown_as_SAFE :
  let status := Some (mkSystemStatus (Some "UNKNOWN") "t" None) in
  ~ recognized "UNKNOWN" /\
  statusCard status =
    {| card_text := "UNKNOWN";
       card_color := JString "#999999";
       card_icon := "alert-circle" |} /\
  card_text (statusCard status) <> "SAFE" /\
  card_color (statusCard status) <> JString "#34C759".
Proof.
  repeat split; try discriminate.
  unfold recognized; intros [E | [E | E]]; discriminate E.
Qed.

(** C9, as amended. A classification that is not empty, is none of SAFE,
    WARNING and EMERGENCY and does not name a property inherited from
    [Object.prototype] is shown as received, in the fallback colour #999999
    and with the icon 'alert-circle', which is the icon of EMERGENCY. *)
Theorem C9_unrecognized_classification_card (s lu : string)
    (d : option string) :
  s <> "" -> ~ recognized s -> Object_prototype !! s = None ->
  statusCard (Some (mkSystemStatus (Some s) lu d)) =
    {| card_text := s;
       card_color := JString "#999999";
       card_icon := "alert-circle" |} /\
  card_icon (statusCard (Some (mkSystemStatus (Some "EMERGENCY") lu d))) =
    "alert-circle".
Proof.
  intros Hne Hs Hp. split; [|reflexivity].
  unfold statusCard, statusColor.
  rewrite (currentStatus_nonempty s lu d Hne).
  rewrite (getStatusColor_fallback s Hs Hp), (statusIcon_other s Hs).
  reflexivity.
Qed.

Lemma C9_unrecognized_classification_card_witness :
  statusCard (Some (mkSystemStatus (Some "UNKNOWN") "t" None)) =
    {| card_text := "UNKNOWN";
       card_color := JString "#999999";
       card_icon := "alert-circle" |} /\
  card_icon (statusCard (Some (mkSystemStatus (Some "EMERGENCY") "t" None))) =
    "alert-circle".
Proof.
  apply (C9_unrecognized_classification_card "UNKNOWN" "t" None).
  - discriminate.
  - unfold recognized; intros [E | [E | E]]; discriminate E.
  - vm_compute; reflexivity.
Defined.

(** C9 as stated fails: the empty string is none of SAFE, WARNING and
    EMERGENCY, and it is shown as SAFE, in the SAFE colour and with the SAFE
    icon, not as received in #999999 with 'alert-circle'. *)
Lemma C9_empty_classification_shown_as_SAFE :
  let status := Some (mkSystemStatus (Some "") "t" None) in
  ~ recognized "" /\
  statusCard status =
    {| card_text := "SAFE";
       card_color := JString "#34C759";
       card_icon := "checkmark-circle" |} /\
  statusCard status <>
    {| card_text := "";
       card_color := JString "#999999";
       card_icon := "alert-circle" |}.
Proof.
  repeat split; try discriminate.
  unfold recognized; intros [E | [E | E]]; discriminate E.
Qed.

(** An inherited property name is not covered by C9 either: the lookup
    finds the constructor of [Object], not a colour. *)
Example getStatusColor_constructor :
  getStatusColor "constructor" = JFunction "Object".
Proof. vm_compute; reflexivity. Qed.

End StatusCardFacts.

(** ** Refreshing the home screen *)

Section HomeRefreshFacts.

Import Js Eff Api Home.

(** Case analysis on the three outcomes of a refresh and on the state it
    starts from; each case is then a computation. *)
Ltac refresh_cases net w :=
  destruct net as [[?|?] [?|?] [?|?]]; destruct w as [[? ? ? ? ?] ?].

(** What a refresh leaves in the three cells: the reads are made in the
    order status, connection, latest alert, a fulfilled read replaces its
    cell, and the first rejected read ends the refresh. *)
Lemma fetchData_cells (net : Responses) (w : World State) :
  let s := ui w in
  let s' := ui (exec (fetchData net) w) in
  (status s', connection s', latestAlert s') =
    match res_status net, res_connection net, res_alert net with
    | Rejected _, _, _ => (status s, connection s, latestAlert s)
    | Fulfilled st, Rejected _, _ => (st, connection s, latestAlert s)
    | Fulfilled st, Fulfilled c, Rejected _ => (st, c, latestAlert s)
    | Fulfilled st, Fulfilled c, Fulfilled a => (st, c, a)
    end.
Proof. refresh_cases net w; reflexivity. Qed.

Lemma fetchData_returns (net : Responses) (w : World State) :
  returns (fetchData net) w = true.
Proof. refresh_cases net w; reflexivity. Qed.

Lemma fetchData_loading (net : Responses) (w : World State) :
  loading (ui (exec (fetchData net) w)) = false.
Proof. refresh_cases net w; reflexivity. Qed.

Lemma refreshes_loading (nets : list Responses) (w : World State) :
  loading (ui w) = false -> loading (ui (refreshes nets w)) = false.
Proof.
  revert w; induction nets as [|net rest IH]; intros w Hw; simpl.
  - exact Hw.
  - apply IH, fetchData_loading.
Qed.

(** C4, as amended. In a refresh where exactly one of the three reads is
    rejected, the rejected resource keeps its previous value, and so do the
    resources read after it (the order is status, connection, latest
    alert), which are not requested; a resource read before it takes its
    newly fetched value. *)
Theorem C4_one_failed_read (net : Responses) (w : World State) :
  one_rejected net = true ->
  let s := ui w in
  let s' := ui (exec (fetchData net) w) in
  match res_status net, res_connection net, res_alert net with
  | Rejected _, _, _ =>
      status s' = status s /\ connection s' = connection s /\
      latestAlert s' = latestAlert s /\
      List.filter is_request (trace (exec (fetchData net) w)) =
        (List.filter is_request (trace w) ++ [Request GET "/status" []])%list
  | Fulfilled st, Rejected _, _ =>
      status s' = st /\ connection s' = connection s /\
      latestAlert s' = latestAlert s /\
      List.filter is_request (trace (exec (fetchData net) w)) =
        (List.filter is_request (trace w) ++
           [Request GET "/status" []; Request GET "/connection" []])%list
  | Fulfilled st, Fulfilled c, _ =>
      status s' = st /\ connection s' = c /\
      latestAlert s' = latestAlert s
  end.
Proof.
  refresh_cases net w; simpl; intros H; try discriminate H;
    repeat split;
    rewrite !List.filter_app; simpl; rewrite ?app_nil_r, <- ?app_assoc;
    reflexivity.
Qed.

Lemma C4_one_failed_read_witness :
  let s' := ui (exec (fetchData Samples.alert_read_fails) Samples.home_calm) in
  status s' = Some Samples.status_warning /\
  connection s' = Some Samples.connection_down /\
  latestAlert s' = None.
Proof.
  exact (C4_one_failed_read Samples.alert_read_fails Samples.home_calm
           eq_refl).
Defined.

(** C4 as stated fails: when the read of the latest alert is rejected
    after the reads of the status and of the connection brought new values,
    exactly one read has failed and the other two resources are not what
    they were before the refresh. *)
Lemma C4_other_resources_replaced :
  let net := Samples.alert_read_fails in
  let s := ui Samples.home_calm in
  let s' := ui (exec (fetchData net) Samples.home_calm) in
  one_rejected net = true /\
  rejected (res_alert net) = true /\
  status s' <> status s /\
  connection s' <> connection s /\
  latestAlert s' = latestAlert s.
Proof. repeat split; discriminate. Qed.

End HomeRefreshFacts.

(** ** Acknowledging on the alert screen *)

Section AcknowledgeFacts.

Import Eff Api AlertScreen.

(** What the handler does when an alert is held, by outcome of its
    request. *)
Lemma handleAcknowledge_held (a : Alert) (ld ack : bool)
    (tr : list Effect) (net : Outcome Response) :
  handleAcknowledge net (mkWorld (mkState (Some a) ld ack) tr) =
    (Normal tt,
     mkWorld (mkState (Some a) ld false)
       (tr ++ Request POST "/alerts/acknowledge" [("alert_id", id a)] ::
          match net with
          | Fulfilled r =>
              if ok r
              then [Dialog "Alert Acknowledged"
                      "The alert has been marked as acknowledged."
                      [("OK", RouterBack)]]
              else []
          | Rejected e =>
              [ConsoleError "Error acknowledging alert:" e;
               Dialog "Error" "Failed to acknowledge alert"
                 [("OK", Dismiss)]]
          end)%list).
Proof.
  destruct net as [r | e].
  - unfold handleAcknowledge; simpl.
    cbv [mbind Prog_bind bind setAcknowledging modify try_catch_finally
         emit await ret ui trace].
    destruct (ok r); cbv [RNAlert_alert emit ret ui trace];
      rewrite <- ?app_assoc, ?app_nil_r; reflexivity.
  - cbv [handleAcknowledge mbind Prog_bind bind setAcknowledging modify
         try_catch_finally emit await ret throw ui trace alert loading
         console_error RNAlert_alert].
    rewrite <- !app_assoc; reflexivity.
Qed.

Lemma handleAcknowledge_not_held (ld ack : bool) (tr : list Effect)
    (net : Outcome Response) :
  handleAcknowledge net (mkWorld (mkState None ld ack) tr) =
    (Normal tt, mkWorld (mkState None ld ack) tr).
Proof. reflexivity. Qed.

(** Whatever the outcome, the handler returns, sends at most the one
    request and leaves the held alert as it was. *)
Lemma handleAcknowledge_one_request (net : Outcome Response)
    (w : World State) :
  let w' := exec (handleAcknowledge net) w in
  returns (handleAcknowledge net) w = true /\
  alert (ui w') = alert (ui w) /\
  length (List.filter is_request (trace w')) <=
    S (length (List.filter is_request (trace w))).
Proof.
  destruct w as [[[a|] ld ack] tr].
  - unfold exec, returns; rewrite handleAcknowledge_held; simpl.
    repeat split. rewrite List.filter_app, length_app; simpl.
    destruct net as [r | e]; [destruct (ok r)|]; simpl; lia.
  - unfold exec, returns; rewrite handleAcknowledge_not_held; simpl.
    repeat split; lia.
Qed.

(** A rejected request is reported to the operator in a dialog. *)
Lemma handleAcknowledge_rejected_notice (a : Alert) (ld ack : bool)
    (tr : list Effect) (e : string) :
  List.last
    (trace (exec (handleAcknowledge (Rejected e))
              (mkWorld (mkState (Some a) ld ack) tr)))
    NavigateBack =
  Dialog "Error" "Failed to acknowledge alert" [("OK", Dismiss)].
Proof.
  unfold exec; rewrite handleAcknowledge_held; simpl.
  induction tr as [|x tr IH]; [reflexivity|].
  simpl. destruct (tr ++ _)%list eqn:E; [destruct tr; discriminate E|].
  exact IH.
Qed.

(** C2: the behaviour of the code at an acknowledge whose write the
    backend rejects. With the alert [a1] held and the answer 500, the
    acknowledge has failed, the held alert is unchanged and the one request
    is not repeated, but no dialog is opened and nothing is logged: the
    operator is not told. *)
Theorem C2_rejected_write_shows_no_notice :
  let net := Fulfilled (mkResponse 500) in
  let w' := exec (handleAcknowledge net) Samples.alert_shown in
  failed net = true /\
  alert (ui w') = Some Samples.alert_a1 /\
  trace w' = [Request POST "/alerts/acknowledge" [("alert_id", "a1")]] /\
  List.filter is_dialog (trace w') = [] /\
  List.filter is_console_error (trace w') = [].
Proof. repeat split. Qed.

(** C3, as amended. When an alert is held and the write is answered with
    a status in 200..299, the handler sends the one request, waits for its
    answer and then opens the dialog "Alert Acknowledged"; the held alert
    is not cleared, so the screen keeps showing it, and no navigation is
    asked for until the operator presses OK in that dialog, which asks to
    navigate back. *)
Theorem C3_successful_acknowledge (a : Alert) (r : Response)
    (w : World State) :
  alert (ui w) = Some a -> ok r = true ->
  let notice :=
    Dialog "Alert Acknowledged" "The alert has been marked as acknowledged."
      [("OK", RouterBack)] in
  let w' := exec (handleAcknowledge (Fulfilled r)) w in
  returns (handleAcknowledge (Fulfilled r)) w = true /\
  trace w' =
    (trace w ++
       [Request POST "/alerts/acknowledge" [("alert_id", id a)]; notice])%list /\
  alert (ui w') = Some a /\
  acknowledging (ui w') = false /\
  render (ui w') =
    (if loading (ui w) then LoadingView
     else DetailsView a (String.eqb (type a) "emergency") false) /\
  trace (exec (press "OK" notice) w') = (trace w' ++ [NavigateBack])%list.
Proof.
  destruct w as [[al ld ack] tr]; simpl; intros -> Hok.
  unfold exec, returns; rewrite handleAcknowledge_held, Hok; simpl.
  repeat split.
Qed.

Lemma C3_successful_acknowledge_witness :
  let notice :=
    Dialog "Alert Acknowledged" "The alert has been marked as acknowledged."
      [("OK", RouterBack)] in
  let net := Fulfilled (mkResponse 200) in
  let w' := exec (handleAcknowledge net) Samples.alert_shown in
  returns (handleAcknowledge net) Samples.alert_shown = true /\
  trace w' =
    [Request POST "/alerts/acknowledge" [("alert_id", "a1")]; notice] /\
  alert (ui w') = Some Samples.alert_a1 /\
  acknowledging (ui w') = false /\
  render (ui w') = DetailsView Samples.alert_a1 true false /\
  trace (exec (press "OK" notice) w') = (trace w' ++ [NavigateBack])%list.
Proof.
  exact (C3_successful_acknowledge Samples.alert_a1 (mkResponse 200)
           Samples.alert_shown eq_refl eq_refl).
Defined.

(** C3 as stated fails: after an acknowledge answered with 200 the screen
    still holds the alert and renders its details, not the view without
    an alert. *)
Lemma C3_alert_still_shown :
  let net := Fulfilled (mkResponse 200) in
  let w' := exec (handleAcknowledge net) Samples.alert_shown in
  ok (mkResponse 200) = true /\
  alert (ui w') = Some Samples.alert_a1 /\
  render (ui w') = DetailsView Samples.alert_a1 true false /\
  render (ui w') <> NoAlertView.
Proof. repeat split; discriminate. Qed.

(** C6. After a fetch of the latest alert that is answered with no alert,
    no alert is held and the screen renders the view without an alert,
    which has no acknowledge button; and whenever no alert is held, calling
    the acknowledge handler returns at once: no request is sent and the
    state and the trace are what they were, whatever the backend would
    have answered. *)
Theorem C6_no_alert_no_acknowledge (w : World State)
    (net : Outcome Response) :
  let w1 := exec (fetchLatestAlert (Fulfilled None)) w in
  alert (ui w1) = None /\
  render (ui w1) = NoAlertView /\
  has_acknowledge_button (render (ui w1)) = false /\
  handleAcknowledge net w1 = (Normal tt, w1) /\
  (forall w2 : World State,
     alert (ui w2) = None ->
     handleAcknowledge net w2 = (Normal tt, w2) /\
     has_acknowledge_button (render (ui w2)) = false).
Proof.
  destruct w as [[al ld ack] tr]; simpl. repeat split.
  - destruct w2 as [[al2 ld2 ack2] tr2]; simpl in *; subst al2.
    apply handleAcknowledge_not_held.
  - destruct w2 as [[al2 ld2 ack2] tr2]; simpl in *; subst al2.
    unfold render; simpl. destruct ld2; reflexivity.
Qed.

End AcknowledgeFacts.

(** ** Failed fetches and the loading indicator *)

Section FetchFailureFacts.

Import Eff Api.

Lemma fetchLatestAlert_run (net : Outcome (option Alert))
    (w : World AlertScreen.State) :
  AlertScreen.fetchLatestAlert net w =
    (Normal tt,
     mkWorld
       (AlertScreen.mkState
          (match net with
           | Fulfilled a => a
           | Rejected _ => AlertScreen.alert (ui w)
           end)
          false (AlertScreen.acknowledging (ui w)))
       (trace w ++ Request GET "/alerts/latest" [] ::
          match net with
          | Fulfilled _ => []
          | Rejected e => [ConsoleError "Error fetching alert:" e]
          end)%list).
Proof.
  destruct w as [[al ld ack] tr], net as [a | e];
    cbv [AlertScreen.fetchLatestAlert mbind Prog_bind bind try_catch_finally
         emit await ret throw ui trace AlertScreen.setAlert modify
         AlertScreen.setLoading console_error AlertScreen.alert
         AlertScreen.loading AlertScreen.acknowledging];
    rewrite <- ?app_assoc; reflexivity.
Qed.

Lemma fetches_loading (nets : list (Outcome (option Alert)))
    (w : World AlertScreen.State) :
  AlertScreen.loading (ui w) = false ->
  AlertScreen.loading (ui (AlertScreen.fetches nets w)) = false.
Proof.
  revert w; induction nets as [|net rest IH]; intros w Hw; simpl.
  - exact Hw.
  - apply IH. unfold exec; rewrite fetchLatestAlert_run; reflexivity.
Qed.

Lemma fetchData_console (net : Home.Responses) (w : World Home.State) :
  List.filter is_console_error (trace (exec (Home.fetchData net) w)) =
    (List.filter is_console_error (trace w) ++
       match Home.first_error net with
       | Some e => [ConsoleError "Error fetching data:" e]
       | None => []
       end)%list.
Proof.
  destruct net as [[?|?] [?|?] [?|?]], w as [[? ? ? ? ?] tr];
    cbv [exec Home.fetchData mbind Prog_bind bind try_catch_finally
         Home.fetch_json emit await ret throw ui trace snd modify
         Home.setStatus Home.setConnection Home.setLatestAlert
         Home.setLoading Home.setRefreshing console_error
         Home.first_error Home.res_status Home.res_connection
         Home.res_alert];
    rewrite !List.filter_app; simpl; rewrite ?app_nil_r; reflexivity.
Qed.

Lemma home_writes_never_raise (net : Home.Responses) (s : Home.State) :
  Forall (fun s' => Home.loading s' = true -> Home.loading s = true)
         (Handlers.home_writes net s).
Proof.
  destruct net as [[?|?] [?|?] [?|?]], s as [? ? ? ld ?];
    unfold Handlers.home_writes; simpl;
    repeat (apply List.Forall_cons; [simpl; intros H; first [exact H | discriminate H]|]);
    apply List.Forall_nil.
Qed.

Lemma home_writes_end (net : Home.Responses) (s : Home.State)
    (tr : list Effect) :
  List.last (Handlers.home_writes net s) s =
    ui (exec (Home.fetchData net) (mkWorld s tr)).
Proof.
  destruct net as [[?|?] [?|?] [?|?]], s as [? ? ? ? ?]; reflexivity.
Qed.

Lemma alert_writes_never_raise (net : Outcome (option Alert))
    (s : AlertScreen.State) :
  Forall (fun s' => AlertScreen.loading s' = true ->
                    AlertScreen.loading s = true)
         (Handlers.alert_writes net s).
Proof.
  destruct net as [?|?], s as [? ld ?];
    unfold Handlers.alert_writes; simpl;
    repeat (apply List.Forall_cons; [simpl; intros H; first [exact H | discriminate H]|]);
    apply List.Forall_nil.
Qed.

Lemma alert_writes_end (net : Outcome (option Alert))
    (s : AlertScreen.State) (tr : list Effect) :
  List.last (Handlers.alert_writes net s) s =
    ui (exec (AlertScreen.fetchLatestAlert net) (mkWorld s tr)).
Proof. destruct net as [?|?], s as [? ? ?]; reflexivity. Qed.

Lemma Forall_not_raised {St : Type} (flag : St -> bool) (s : St)
    (l : list St) :
  flag s = false ->
  Forall (fun s' => flag s' = true -> flag s = true) l ->
  Forall (fun s' => flag s' = false) l.
Proof.
  intros Hs H. induction H as [|x l Hx Hl IH]; constructor; [|exact IH].
  destruct (flag x); [|reflexivity]. specialize (Hx eq_refl). congruence.
Qed.



End FetchFailureFacts.

(** ** Relative time in the event log *)

Section RelativeTimeFacts.

Import Js EventLog.

Local Open Scope Z_scope.

Variable Date_getTime : string -> option Z.
Variable toLocaleDateString : option Z -> string.

(** Flooring a quotient and comparing it with [n] is comparing the
    dividend with [n * k]. *)
Lemma div_ltb (e k n : Z) : 0 < k -> (e / k <? n) = (e <? n * k).
Proof.
  intros Hk.
  destruct (Z.ltb_spec (e / k) n) as [H | H],
           (Z.ltb_spec e (n * k)) as [H' | H']; try reflexivity; exfalso.
  - assert (e / k >= n); [|lia].
    apply Z.le_ge, Z.div_le_lower_bound; lia.
  - assert (e / k < n); [|lia].
    apply Z.div_lt_upper_bound; lia.
Qed.

Lemma minutes_hours_days (e : Z) :
  e / 60000 / 60 = e / 3600000 /\ e / 60000 / 60 / 24 = e / 86400000.
Proof.
  rewrite !Z.div_div by lia. split; reflexivity.
Qed.

(** The buckets of [formatDateTime], read on the elapsed milliseconds. *)
Lemma formatDateTime_elapsed (now : Z) (timestamp : string) (t : Z) :
  Date_getTime timestamp = Some t ->
  formatDateTime Date_getTime toLocaleDateString now timestamp =
    let elapsed := now - t in
    if elapsed <? 60000 then "Just now"
    else if elapsed <? 3600000
         then number_to_string (elapsed / 60000) +:+ "m ago"
    else if elapsed <? 86400000
         then number_to_string (elapsed / 3600000) +:+ "h ago"
    else if elapsed <? 604800000
         then number_to_string (elapsed / 86400000) +:+ "d ago"
    else toLocaleDateString (Some t).
Proof.
  intros Ht. unfold formatDateTime. rewrite Ht. cbv zeta.
  destruct (minutes_hours_days (now - t)) as [-> ->].
  rewrite !div_ltb by lia.
  reflexivity.
Qed.

(** C5, as amended. For a timestamp that is not after the clock reading,
    the text is a function of the timestamp and of the clock reading alone,
    and it is the text of the specification's table for the elapsed time
    in every bucket but the first, where it is "Just now" with a capital J:
    under one minute "Just now", under 60 minutes "Nm ago", under 24 hours
    "Nh ago", under 7 days "Nd ago", and the short date of the locale
    otherwise. So exactly 5 minutes give "5m ago", exactly 3 hours "3h ago",
    exactly 2 days "2d ago", and 10 days the short date. *)
Theorem C5_relative_time_buckets (now : Z) (timestamp : string) (t : Z) :
  Date_getTime timestamp = Some t -> 0 <= now - t ->
  let elapsed := now - t in
  let text := formatDateTime Date_getTime toLocaleDateString now timestamp in
  text =
    (if elapsed <? 60000 then "Just now"
     else spec_relative_time (toLocaleDateString (Some t)) elapsed) /\
  (elapsed < 60000 -> text = "Just now") /\
  (60000 <= elapsed < 60 * 60000 ->
   text = number_to_string (elapsed / 60000) +:+ "m ago") /\
  (60 * 60000 <= elapsed < 24 * 60 * 60000 ->
   text = number_to_string (elapsed / (60 * 60000)) +:+ "h ago") /\
  (24 * 60 * 60000 <= elapsed < 7 * 24 * 60 * 60000 ->
   text = number_to_string (elapsed / (24 * 60 * 60000)) +:+ "d ago") /\
  (7 * 24 * 60 * 60000 <= elapsed -> text = toLocaleDateString (Some t)) /\
  (elapsed = 5 * 60000 -> text = "5m ago") /\
  (elapsed = 3 * 60 * 60000 -> text = "3h ago") /\
  (elapsed = 2 * 24 * 60 * 60000 -> text = "2d ago") /\
  (elapsed = 10 * 24 * 60 * 60000 -> text = toLocaleDateString (Some t)).
Proof.
  intros Ht Hpos elapsed text. subst text.
  rewrite (formatDateTime_elapsed now timestamp t Ht).
  fold elapsed. cbv zeta. unfold spec_relative_time.
  change (60 * 60000) with 3600000.
  change (24 * 60 * 60000) with 86400000.
  change (7 * 24 * 60 * 60000) with 604800000.
  repeat split.
  - destruct (elapsed <? 60000); reflexivity.
  - intros H. destruct (Z.ltb_spec elapsed 60000); [reflexivity | lia].
  - intros H.
    destruct (Z.ltb_spec elapsed 60000); [lia|].
    destruct (Z.ltb_spec elapsed 3600000); [reflexivity | lia].
  - intros H.
    destruct (Z.ltb_spec elapsed 60000); [lia|].
    destruct (Z.ltb_spec elapsed 3600000); [lia|].
    destruct (Z.ltb_spec elapsed 86400000); [reflexivity | lia].
  - intros H.
    destruct (Z.ltb_spec elapsed 60000); [lia|].
    destruct (Z.ltb_spec elapsed 3600000); [lia|].
    destruct (Z.ltb_spec elapsed 86400000); [lia|].
    destruct (Z.ltb_spec elapsed 604800000); [reflexivity | lia].
  - intros H.
    destruct (Z.ltb_spec elapsed 60000); [lia|].
    destruct (Z.ltb_spec elapsed 3600000); [lia|].
    destruct (Z.ltb_spec elapsed 86400000); [lia|].
    destruct (Z.ltb_spec elapsed 604800000); [lia | reflexivity].
  - intros ->; reflexivity.
  - intros ->; reflexivity.
  - intros ->; reflexivity.
  - intros ->; reflexivity.
Qed.

(** C10. For a timestamp after the clock reading the elapsed time is
    negative, the floored minute count is below one, and the text is
    "Just now". *)
Theorem C10_future_timestamp_just_now (now : Z) (timestamp : string)
    (t : Z) :
  Date_getTime timestamp = Some t -> now < t ->
  formatDateTime Date_getTime toLocaleDateString now timestamp = "Just now".
Proof.
  intros Ht Hlt.
  rewrite (formatDateTime_elapsed now timestamp t Ht). cbv zeta.
  destruct (Z.ltb_spec (now - t) 60000); [reflexivity | lia].
Qed.

End RelativeTimeFacts.

Section RelativeTimeSamples.

Import Js EventLog.

Local Open Scope Z_scope.

Lemma C5_relative_time_buckets_witness :
  formatDateTime Samples.epoch_getTime Samples.plain_date
    (5 * 60000) "1970-01-01T00:00:00Z" = "5m ago".
Proof.
  destruct (C5_relative_time_buckets Samples.epoch_getTime
              Samples.plain_date (5 * 60000) "1970-01-01T00:00:00Z" 0
              eq_refl ltac:(lia))
    as (_ & _ & _ & _ & _ & _ & H & _).
  apply H. reflexivity.
Defined.

(** C5 as stated fails in its first bucket: for an elapsed time of 30
    seconds the text is "Just now", which is not the "just now" of the
    specification's table. *)
Lemma C5_first_bucket_is_capitalized :
  let text :=
    formatDateTime Samples.epoch_getTime Samples.plain_date 30000
      "1970-01-01T00:00:00Z" in
  text = "Just now" /\
  spec_relative_time (Samples.plain_date (Some 0)) 30000 = "just now" /\
  text <> "just now".
Proof. repeat split; discriminate. Qed.

Lemma C10_future_timestamp_just_now_witness :
  formatDateTime Samples.epoch_getTime Samples.plain_date (-90000)
    "1970-01-01T00:00:00Z" = "Just now".
Proof.
  apply (C10_future_timestamp_just_now Samples.epoch_getTime
           Samples.plain_date (-90000) "1970-01-01T00:00:00Z" 0).
  - reflexivity.
  - lia.
Defined.

End RelativeTimeSamples.

(** ** The refresh timer *)

Section TimerFacts.

Import Eff Api Timers.

Local Open Scope Z_scope.

Lemma elapse_tick (n : nat) (r : Runtime) :
  elapse (S n) r = tick (elapse n r).
Proof.
  revert r; induction n as [|n IH]; intros r.
  - reflexivity.
  - change (elapse (S (S n)) r) with (elapse (S n) (tick r)).
    rewrite IH. reflexivity.
Qed.

(** The runtime [n] milliseconds after the home screen mounted at [t0]:
    one timer, armed for the next multiple of 30000 after the mount, and
    one call at the mount and at each multiple reached. *)
Lemma mounted_runtime (t0 : Z) (n : nat) :
  elapse n (mount (boot t0)) =
    {| clock := t0 + Z.of_nat n;
       timers :=
         [(0%nat,
           mkTimer FetchData 30000
                   (t0 + 30000 * (Z.of_nat n / 30000 + 1)))];
       next_id := 1;
       calls :=
         List.map (fun t => (t, FetchData))
           (refresh_times t0 (Z.to_nat (Z.of_nat n / 30000)));
       cleanup := Some 0%nat |}.
Proof.
  induction n as [|n IH].
  - simpl. unfold mount, boot, call, setInterval; simpl.
    rewrite Z.add_0_r. reflexivity.
  - rewrite elapse_tick, IH. unfold tick; simpl clock; simpl timers.
    set (q := Z.of_nat n / 30000).
    assert (Hq : 0 <= q) by (apply Z.div_pos; lia).
    assert (Hn : 30000 * q <= Z.of_nat n < 30000 * q + 30000).
    { subst q. pose proof (Z.mul_div_le (Z.of_nat n) 30000).
      pose proof (Z.mul_succ_div_gt (Z.of_nat n) 30000). lia. }
    unfold List.map at 1, List.flat_map, fired, rearm; simpl.
    rewrite Nat2Z.inj_succ.
    destruct (Z.leb_spec (t0 + 30000 * (q + 1)) (t0 + Z.of_nat n + 1))
      as [Hdue | Hdue].
    + assert (Hq' : Z.succ (Z.of_nat n) / 30000 = q + 1).
      { symmetry. apply (Z.div_unique _ _ _ 0); lia. }
      rewrite Hq'.
      replace (Z.to_nat (q + 1)) with (S (Z.to_nat q)) by lia.
      simpl refresh_times. rewrite List.map_app; simpl.
      replace (t0 + 30000 * (q + 1) + 30000)
        with (t0 + 30000 * (q + 1 + 1)) by lia.
      replace (t0 + 30000 * Z.of_nat (S (Z.to_nat q)))
        with (t0 + Z.of_nat n + 1) by lia.
      f_equal. lia.
    + assert (Hq' : Z.succ (Z.of_nat n) / 30000 = q).
      { symmetry.
        apply (Z.div_unique _ _ _ (Z.succ (Z.of_nat n) - 30000 * q)); lia. }
      rewrite Hq'. rewrite app_nil_r.
      f_equal. lia.
Qed.

Lemma tick_no_timer (r : Runtime) :
  timers r = [] -> timers (tick r) = [] /\ calls (tick r) = calls r.
Proof.
  intros H. unfold tick; simpl. rewrite H; simpl.
  split; [reflexivity | apply app_nil_r].
Qed.

Lemma elapse_no_timer (m : nat) (r : Runtime) :
  timers r = [] -> calls (elapse m r) = calls r.
Proof.
  revert r; induction m as [|m IH]; intros r H; simpl.
  - reflexivity.
  - destruct (tick_no_timer r H) as [Ht Hc].
    rewrite (IH _ Ht). exact Hc.
Qed.

(** C7. From the mount of the home screen at [t0] and for any number [n]
    of milliseconds the screen stays mounted: there is exactly one timer,
    its delay is 30000 and it is armed for the next multiple of 30000 after
    the mount; the refresh routine has been called at the mount and once at
    each multiple of 30000 reached since, and each call that finds its
    reads fulfilled requests the status, the connection and the latest
    alert; tearing the screen down leaves no timer, and however long the
    runtime goes on afterwards no further call is made. *)
Theorem C7_refresh_timer (t0 : Z) (n m : nat) :
  let r := elapse n (mount (boot t0)) in
  timers r =
    [(0%nat,
      mkTimer FetchData 30000 (t0 + 30000 * (Z.of_nat n / 30000 + 1)))] /\
  calls r =
    List.map (fun t => (t, FetchData))
      (refresh_times t0 (Z.to_nat (Z.of_nat n / 30000))) /\
  (forall st c a (w : World Home.State),
     trace (exec (Home.fetchData
                    (Home.mkResponses (Fulfilled st) (Fulfilled c)
                                      (Fulfilled a))) w) =
       (trace w ++
          [Request GET "/status" []; Request GET "/connection" [];
           Request GET "/alerts/latest" []])%list) /\
  timers (unmount r) = [] /\
  cleanup (unmount r) = None /\
  calls (elapse m (unmount r)) = calls r.
Proof.
  intros r. subst r. rewrite mounted_runtime.
  split; [reflexivity|]. split; [reflexivity|].
  split.
  { intros st c a [[? ? ? ? ?] tr].
    cbv [exec Home.fetchData mbind Prog_bind bind try_catch_finally
         Home.fetch_json emit await ret throw ui trace snd modify
         Home.setStatus Home.setConnection Home.setLatestAlert
         Home.setLoading Home.setRefreshing console_error
         Home.res_status Home.res_connection Home.res_alert].
    rewrite <- !app_assoc. reflexivity. }
  split; [reflexivity|]. split; [reflexivity|].
  rewrite elapse_no_timer by reflexivity. reflexivity.
Qed.

(** The first minute after a mount at the instant 7: the call of the
    mount, and the calls of the timer at 30007 and at 60007. *)
Example refresh_times_first_minute :
  refresh_times 7 (Z.to_nat (60000 / 30000)) = [7; 30007; 60007].
Proof. reflexivity. Qed.

End TimerFacts.

(** * Further properties of the screens *)

(** ** The refresh of the home screen and what it shows *)

Section HomeScreenFacts.

Import Js Eff Api Home HomeDetails.

Ltac by_cases net w :=
  destruct net as [[?|?] [?|?] [?|?]]; destruct w as [[? ? ? ? ?] ?].

(** X1. A refresh sends its reads in the order status, connection, latest
    alert and stops after the first rejected one: between one and three
    requests, always beginning with the status, and nothing else. *)
Theorem fetchData_reads_in_order (net : Responses) (w : World State) :
  List.filter is_request (trace (exec (fetchData net) w)) =
    (List.filter is_request (trace w) ++
       List.firstn (reads_made net) reads)%list /\
  1 <= reads_made net <= 3 /\
  (reads_made net = 3 <->
   rejected (res_status net) = false /\
   rejected (res_connection net) = false).
Proof.
  by_cases net w; unfold reads_made; simpl; rewrite !List.filter_app; simpl;
    rewrite ?app_nil_r, <- ?app_assoc;
    (split; [reflexivity|]); (split; [lia|]);
    split; intros H; try discriminate H; try (destruct H; discriminate);
    auto.
Qed.

(** X2. Refreshing a second time with the same answers changes nothing on
    the screen. *)
Theorem fetchData_idempotent (net : Responses) (w : World State) :
  ui (exec (fetchData net) (exec (fetchData net) w)) =
    ui (exec (fetchData net) w).
Proof. by_cases net w; reflexivity. Qed.

(** X3. A refresh all of whose reads are fulfilled leaves a state that is
    the answers' alone: the three cells hold the fetched values and both
    flags are false, whatever the screen held before, stale or not. *)
Theorem fetchData_fulfilled_overwrites (net : Responses)
    (w1 w2 : World State) :
  first_error net = None ->
  ui (exec (fetchData net) w1) = ui (exec (fetchData net) w2) /\
  res_status net = Fulfilled (status (ui (exec (fetchData net) w1))) /\
  res_connection net =
    Fulfilled (connection (ui (exec (fetchData net) w1))) /\
  res_alert net = Fulfilled (latestAlert (ui (exec (fetchData net) w1))) /\
  loading (ui (exec (fetchData net) w1)) = false /\
  refreshing (ui (exec (fetchData net) w1)) = false.
Proof.
  by_cases net w1; destruct w2 as [[? ? ? ? ?] ?]; simpl; intros H;
    try discriminate H; repeat split.
Qed.

(** X4. A manual refresh ends in the state and with the effects of a refresh
    of the timer: the flag it raises is lowered again whether the reads
    succeed or fail, so the pull-to-refresh spinner does not stay. *)
Theorem onRefresh_as_fetchData (net : Responses) (w : World State) :
  returns (onRefresh net) w = true /\
  exec (onRefresh net) w = exec (fetchData net) w /\
  refreshing (ui (exec (onRefresh net) w)) = false.
Proof. by_cases net w; repeat split. Qed.

(** X5. When the very first refresh fails at its first read, the screen
    leaves the spinner and shows a calm state that no answer supports: the
    status card reads SAFE in green, the connection line reads
    Disconnected, and there is no alert preview. *)
Theorem first_refresh_failed_shows_SAFE (e : string)
    (conn : Outcome (option ConnectionStatus))
    (al : Outcome (option Alert)) (tr : list Effect) :
  let w' := exec (fetchData (mkResponses (Rejected e) conn al))
                 (mkWorld initial tr) in
  render initial = LoadingView /\
  render (ui w') =
    MainView false
      {| card_text := "SAFE";
         card_color := JString "#34C759";
         card_icon := "checkmark-circle" |}
      None /\
  connectionCard (connection (ui w')) =
    {| conn_icon := "radio-outline";
       conn_color := "#FF3B30";
       conn_text := "Disconnected";
       conn_last_ping := None |}.
Proof. destruct conn, al; repeat split. Qed.

(** X6. A demo button does not catch: when its POST is rejected the error
    leaves the handler, nothing on the screen changes and no refresh
    follows; when the POST is answered, with whatever status, the refresh
    follows and the handler returns. *)
Theorem simulate_then_refresh (path : string) (net : Responses)
    (w : World State) :
  let posted := mkWorld (ui w) (trace w ++ [Request POST path []]) in
  (forall e : string,
     simulate path (Rejected e) net w = (Throw e, posted)) /\
  (forall r : Response,
     returns (simulate path (Fulfilled r) net) w = true /\
     exec (simulate path (Fulfilled r) net) w =
       exec (fetchData net) posted).
Proof.
  split.
  - intros e. reflexivity.
  - intros r. by_cases net w; repeat split.
Qed.

End HomeScreenFacts.

(** ** What a green card means *)

Section SafeCardFacts.

Import Js Eff Api Home.

Lemma Object_prototype_no_string (s c : string) :
  Object_prototype !! s <> Some (JString c).
Proof.
  intros E. unfold Object_prototype in E.
  apply elem_of_list_to_map_2 in E.
  repeat (apply elem_of_cons in E; destruct E as [E | E];
          [discriminate E|]).
  apply elem_of_nil in E. exact E.
Qed.

Lemma getStatusColor_green (s : string) :
  getStatusColor s = JString "#34C759" <-> s = "SAFE".
Proof.
  split; [|intros ->; reflexivity].
  unfold getStatusColor, get, STATUS_COLORS.
  destruct (decide (s = "SAFE")) as [|n1]; [auto|].
  rewrite lookup_insert_ne by congruence.
  destruct (decide (s = "WARNING")) as [->|n2]; [discriminate|].
  rewrite lookup_insert_ne by congruence.
  destruct (decide (s = "EMERGENCY")) as [->|n3]; [discriminate|].
  rewrite lookup_insert_ne by congruence. rewrite lookup_empty.
  destruct (Object_prototype !! s) as [v|] eqn:E; [|discriminate].
  destruct v as [| c | f | o]; try discriminate.
  exfalso. exact (Object_prototype_no_string s c E).
Qed.

Lemma statusIcon_check (s : string) :
  statusIcon s = "checkmark-circle" <-> s = "SAFE".
Proof.
  unfold statusIcon.
  destruct (String.eqb_spec s "SAFE") as [-> | n1]; [tauto|].
  destruct (String.eqb_spec s "WARNING"); split; intros H;
    try discriminate H; contradiction.
Qed.

Lemma currentStatus_SAFE (st : option SystemStatus) :
  currentStatus st = "SAFE" <->
  missing st \/ st ≫= current_status = Some "SAFE".
Proof.
  unfold currentStatus, missing.
  destruct (st ≫= current_status) as [s|]; [|tauto].
  destruct (String.eqb_spec s "") as [-> | n]; [tauto|].
  split.
  - intros ->. right; reflexivity.
  - intros [[H | H] | H]; try discriminate H; congruence.
Qed.

(** X7. The status card reads SAFE, is green, and carries the check mark in
    exactly the same cases: when the backend said SAFE, and when the
    classification is missing or empty. No other answer, and no inherited
    property name, gives any of the three. *)
Theorem statusCard_SAFE_iff (st : option SystemStatus) :
  let said_or_missing :=
    missing st \/ st ≫= current_status = Some "SAFE" in
  (card_text (statusCard st) = "SAFE" <-> said_or_missing) /\
  (card_color (statusCard st) = JString "#34C759" <-> said_or_missing) /\
  (card_icon (statusCard st) = "checkmark-circle" <-> said_or_missing).
Proof.
  cbv zeta. unfold statusCard, statusColor; simpl.
  rewrite getStatusColor_green, statusIcon_check.
  pose proof (currentStatus_SAFE st). tauto.
Qed.

End SafeCardFacts.

(** ** The alert on both screens, and the acknowledge button *)

Section AlertDetailsFacts.

Import Eff Api AlertScreen AlertDetails.

(** X8. Only the type "emergency", spelled so, is an emergency. For every
    alert the preview badge of the home screen has the colour of the alert
    screen; an alert of any other type, "EMERGENCY" in capitals included,
    is styled as a warning on both, and the emergency instructions are
    left out. The flag [acknowledged] of the alert plays no part: two
    alerts of the same type, such as an alert and the same alert with the
    flag set otherwise, are styled alike on both screens, and the alert
    screen shows for both the same kind of view, with the acknowledge
    button in the same state. *)
Theorem alert_styling_agrees (a : Alert) :
  HomeDetails.previewBadgeColor a = alertColor a /\
  (isEmergency a = true <-> type a = "emergency") /\
  (type a = "emergency" ->
   alertColor a = "#FF3B30" /\ alertIcon a = "alert-circle" /\
   backgroundColor a = "#FFF5F5" /\ showsInstructions a = true) /\
  (type a <> "emergency" ->
   alertColor a = "#FFCC00" /\ alertIcon a = "warning" /\
   backgroundColor a = "#FFFEF5" /\ showsInstructions a = false) /\
  (forall (flag ld ack : bool),
     let b :=
       mkAlert (id a) (type a) (alert_description a) (timestamp a) flag in
     HomeDetails.previewBadgeColor b = HomeDetails.previewBadgeColor a /\
     alertColor b = alertColor a /\ alertIcon b = alertIcon a /\
     backgroundColor b = backgroundColor a /\
     showsInstructions b = showsInstructions a /\
     has_acknowledge_button (render (mkState (Some b) ld ack)) =
       has_acknowledge_button (render (mkState (Some a) ld ack)) /\
     match render (mkState (Some b) ld ack),
           render (mkState (Some a) ld ack) with
     | LoadingView, LoadingView => True
     | DetailsView shown e d, DetailsView shown' e' d' =>
         e = e' /\ d = d' /\ shown = b /\ shown' = a
     | _, _ => False
     end) /\
  (forall i d ts : string,
     render (mkState (Some (mkAlert i "emergency" d ts true)) false false) =
       DetailsView (mkAlert i "emergency" d ts true) true false).
Proof.
  unfold HomeDetails.previewBadgeColor, alertColor, alertIcon,
    backgroundColor, showsInstructions, isEmergency.
  split; [reflexivity|].
  split; [apply String.eqb_eq|].
  split.
  { intros E. apply String.eqb_eq in E. rewrite E. repeat split. }
  split.
  { intros E. apply String.eqb_neq in E. rewrite E. repeat split. }
  split.
  { intros flag ld ack. cbv zeta. simpl type.
    repeat (split; [reflexivity|]).
    unfold render; simpl. destruct ld; simpl; repeat split. }
  intros i d ts. reflexivity.
Qed.

Lemma handleAcknowledge_sent_held (a : Alert) (ld ack : bool)
    (tr : list Effect) :
  handleAcknowledge_sent (mkWorld (mkState (Some a) ld ack) tr) =
    (Normal true,
     mkWorld (mkState (Some a) ld true)
       (tr ++ [Request POST "/alerts/acknowledge" [("alert_id", id a)]])).
Proof. reflexivity. Qed.

Lemma handleAcknowledge_settled_run (net : Outcome Response)
    (w : World State) :
  handleAcknowledge_settled net w =
    (Normal tt,
     mkWorld (mkState (alert (ui w)) (loading (ui w)) false)
       (trace w ++
          match net with
          | Fulfilled r =>
              if ok r
              then [Dialog "Alert Acknowledged"
                      "The alert has been marked as acknowledged."
                      [("OK", RouterBack)]]
              else []
          | Rejected e =>
              [ConsoleError "Error acknowledging alert:" e;
               Dialog "Error" "Failed to acknowledge alert"
                 [("OK", Dismiss)]]
          end)%list).
Proof.
  destruct w as [[al ld ack] tr], net as [r | e].
  - cbv [handleAcknowledge_settled mbind Prog_bind bind try_catch_finally
         await ret ui trace setAcknowledging modify alert loading].
    destruct (ok r); cbv [RNAlert_alert emit ret ui trace alert loading];
      rewrite ?app_nil_r; reflexivity.
  - cbv [handleAcknowledge_settled mbind Prog_bind bind try_catch_finally
         await ret throw ui trace setAcknowledging modify alert loading
         console_error RNAlert_alert emit].
    rewrite <- !app_assoc; reflexivity.
Qed.

(** X9. The handler is its two halves around the [await]. With an alert held
    and the screen loaded, the state between them, while the request is
    under way, renders the acknowledge button disabled, and the state after
    the request has settled renders it enabled again, whatever the outcome:
    fulfilled with success, fulfilled with an error status, or rejected. *)
Theorem acknowledge_button_disabled_in_flight (a : Alert) (ack : bool)
    (tr : list Effect) (net : Outcome Response) :
  let w := mkWorld (mkState (Some a) false ack) tr in
  let w1 := exec handleAcknowledge_sent w in
  let w2 := exec (handleAcknowledge_settled net) w1 in
  handleAcknowledge net w = (Normal tt, w2) /\
  render (ui w1) = DetailsView a (isEmergency a) true /\
  render (ui w2) = DetailsView a (isEmergency a) false.
Proof.
  cbv zeta. unfold exec.
  rewrite handleAcknowledge_sent_held; simpl snd.
  rewrite handleAcknowledge_settled_run; simpl.
  rewrite handleAcknowledge_held.
  split; [|split; reflexivity].
  rewrite <- app_assoc. reflexivity.
Qed.

(** Without an alert held the first half sends nothing and tells the
    handler to stop. *)
Lemma handleAcknowledge_sent_not_held (ld ack : bool) (tr : list Effect) :
  handleAcknowledge_sent (mkWorld (mkState None ld ack) tr) =
    (Normal false, mkWorld (mkState None ld ack) tr).
Proof. reflexivity. Qed.

Lemma acknowledges_held (nets : list (Outcome Response)) (a : Alert)
    (ld ack : bool) (tr : list Effect) :
  exists (ack' : bool) (tr' : list Effect),
    acknowledges nets (mkWorld (mkState (Some a) ld ack) tr) =
      mkWorld (mkState (Some a) ld ack') tr' /\
    List.filter is_request tr' =
      (List.filter is_request tr ++
         List.repeat
           (Request POST "/alerts/acknowledge" [("alert_id", id a)])
           (length nets))%list.
Proof.
  revert ack tr; induction nets as [|net rest IH]; intros ack tr.
  - exists ack, tr. simpl. rewrite app_nil_r. split; reflexivity.
  - simpl acknowledges. unfold exec at 1.
    rewrite handleAcknowledge_held; simpl snd.
    destruct (IH false
                (tr ++ Request POST "/alerts/acknowledge"
                         [("alert_id", id a)] ::
                   match net with
                   | Fulfilled r =>
                       if ok r
                       then [Dialog "Alert Acknowledged"
                               "The alert has been marked as acknowledged."
                               [("OK", RouterBack)]]
                       else []
                   | Rejected e =>
                       [ConsoleError "Error acknowledging alert:" e;
                        Dialog "Error" "Failed to acknowledge alert"
                          [("OK", Dismiss)]]
                   end)%list)
      as (ack' & tr' & Hw & Hr).
    exists ack', tr'. split; [exact Hw|].
    rewrite Hr, List.filter_app. simpl List.filter.
    rewrite <- app_assoc. f_equal. simpl.
    destruct net as [r | e]; [destruct (ok r)|]; reflexivity.
Qed.

(** X10. Acknowledging is not remembered: the alert stays held through any
    number of invocations, and each of them, after a success as after a
    failure, sends one more POST with the id of that alert. *)
Theorem acknowledge_repeats (nets : list (Outcome Response)) (a : Alert)
    (ld ack : bool) (tr : list Effect) :
  let w' := acknowledges nets (mkWorld (mkState (Some a) ld ack) tr) in
  alert (ui w') = Some a /\
  List.filter is_request (trace w') =
    (List.filter is_request tr ++
       List.repeat (Request POST "/alerts/acknowledge" [("alert_id", id a)])
         (length nets))%list.
Proof.
  destruct (acknowledges_held nets a ld ack tr) as (ack' & tr' & Hw & Hr).
  cbv zeta. rewrite Hw. simpl. split; [reflexivity | exact Hr].
Qed.

(** X11. The way back opens on success alone: among the effects of an
    invocation with an alert held there is a dialog with a button that
    navigates back exactly when the request was answered with a status in
    200..299; the button of the error dialog closes it and does nothing
    else. *)
Theorem navigate_back_iff_acknowledged (a : Alert) (ld ack : bool)
    (tr : list Effect) (net : Outcome Response) :
  let w := mkWorld (mkState (Some a) ld ack) tr in
  let w' := exec (handleAcknowledge net) w in
  List.existsb leads_back (List.skipn (length tr) (trace w')) =
    negb (failed net) /\
  List.existsb (fun e => match e with NavigateBack => true | _ => false end)
    (List.skipn (length tr) (trace w')) = false /\
  press "OK" (Dialog "Error" "Failed to acknowledge alert" [("OK", Dismiss)])
        w' = (Normal tt, w').
Proof.
  cbv zeta. unfold exec. rewrite handleAcknowledge_held; simpl snd.
  simpl trace. rewrite List.skipn_app, List.skipn_all, Nat.sub_diag.
  unfold failed. simpl.
  destruct net as [r | e]; [destruct (ok r)|]; repeat split.
Qed.

End AlertDetailsFacts.

(** ** The event log *)

Section EventScreenFacts.

Import Js Eff EventScreen.

Local Open Scope Z_scope.

Variable Date_getTime : string -> option Z.
Variable toLocaleDateString : option Z -> string.
Variable toUpperCase : string -> string.

Lemma fetchEvents_run (net : Outcome (list Event)) (w : World State) :
  fetchEvents net w =
    (Normal tt,
     mkWorld
       (mkState
          (match net with
           | Fulfilled data => data
           | Rejected _ => events (ui w)
           end)
          false false)
       (trace w ++ Request GET "/events" [] ::
          match net with
          | Fulfilled _ => []
          | Rejected e => [ConsoleError "Error fetching events:" e]
          end)%list).
Proof.
  destruct w as [[evs ld rf] tr], net as [data | e];
    cbv [fetchEvents mbind Prog_bind bind try_catch_finally emit await ret
         throw ui trace setEvents modify setLoading setRefreshing
         console_error events loading refreshing];
    rewrite <- ?app_assoc; reflexivity.
Qed.

(** X13. A fetch of the events, started by the mount or by a refresh, always
    returns with both flags lowered. A fulfilled read replaces the list by
    the received one, and the screen then shows the notice of an empty log
    when the array is empty and otherwise one row per event in the order
    received; a rejected read is written to the console and leaves the
    list that was held. *)
Theorem fetchEvents_then_render (net : Outcome (list Event))
    (w : World State) (now : Z) :
  let w' := exec (fetchEvents net) w in
  let held :=
    match net with
    | Fulfilled data => data
    | Rejected _ => events (ui w)
    end in
  returns (fetchEvents net) w = true /\
  exec (onRefresh net) w = w' /\
  ui w' = mkState held false false /\
  List.filter is_console_error (trace w') =
    (List.filter is_console_error (trace w) ++
       match net with
       | Fulfilled _ => []
       | Rejected e => [ConsoleError "Error fetching events:" e]
       end)%list /\
  render Date_getTime toLocaleDateString toUpperCase now (ui w') =
    match held with
    | [] => EmptyView
    | _ :: _ =>
        ListView
          (List.map
             (renderEvent Date_getTime toLocaleDateString toUpperCase now)
             held)
          false
    end.
Proof.
  cbv zeta. unfold exec, returns, onRefresh.
  cbv [mbind Prog_bind bind setRefreshing modify].
  rewrite !fetchEvents_run. simpl.
  repeat split.
  - rewrite List.filter_app; simpl. destruct net; reflexivity.
  - unfold render; simpl.
    destruct (match net with
              | Fulfilled data => data
              | Rejected _ => events (ui w)
              end); reflexivity.
Qed.

(** X14. The grey colour and the information icon are the marks of an event
    type that is none of alert, status_change and connection, and of
    nothing else; and two event types have the same colour exactly when
    they have the same icon. *)
Theorem event_marks (t u : string) :
  (getEventColor t = "#999" <-> ~ known_event_type t) /\
  (getEventIcon t = "information-circle" <-> ~ known_event_type t) /\
  (getEventColor t = getEventColor u <-> getEventIcon t = getEventIcon u).
Proof.
  unfold getEventColor, getEventIcon, known_event_type.
  destruct (String.eqb_spec t "alert");
    destruct (String.eqb_spec t "status_change");
    destruct (String.eqb_spec t "connection");
    destruct (String.eqb_spec u "alert");
    destruct (String.eqb_spec u "status_change");
    destruct (String.eqb_spec u "connection");
    subst; try discriminate;
    (split; [|split]); split; intros H; try discriminate H;
    try reflexivity; try tauto.
Qed.

Lemma replace_first_length (c d : ascii) (s : string) :
  String.length (replace_first c d s) = String.length s.
Proof.
  induction s as [|x rest IH]; simpl; [reflexivity|].
  destruct (Ascii.eqb x c); simpl; [reflexivity | now rewrite IH].
Qed.

Lemma replace_first_absent (c d : ascii) (s : string) :
  occurrences c s = 0%nat -> replace_first c d s = s.
Proof.
  induction s as [|x rest IH]; simpl; [reflexivity|].
  destruct (Ascii.eqb x c); simpl; [discriminate|].
  intros H. now rewrite IH.
Qed.

Lemma replace_first_occurrences (c d : ascii) (s : string) :
  c <> d ->
  occurrences c (replace_first c d s) = Nat.pred (occurrences c s).
Proof.
  intros Hcd.
  induction s as [|x rest IH]; simpl; [reflexivity|].
  destruct (Ascii.eqb_spec x c) as [-> | Hx]; simpl.
  - destruct (Ascii.eqb_spec d c) as [-> | _]; [contradiction | reflexivity].
  - destruct (Ascii.eqb_spec x c) as [-> | _]; [contradiction|].
    simpl. exact IH.
Qed.

(** X15. The label of an event type has its first underscore, and only that
    one, turned into a space before it is put in capitals: the text keeps
    its length, a type without underscore is passed as it is, and a type
    with several underscores keeps all but the first. *)
Theorem event_label_first_underscore (item : Event) (now : Z) :
  let spaced := replace_first "_" " " (event_type item) in
  row_type (renderEvent Date_getTime toLocaleDateString toUpperCase now item)
    = toUpperCase spaced /\
  String.length spaced = String.length (event_type item) /\
  occurrences "_" spaced = Nat.pred (occurrences "_" (event_type item)) /\
  occurrences " " spaced =
    (occurrences " " (event_type item) +
       (if Nat.eqb (occurrences "_" (event_type item)) 0 then 0 else 1))%nat.
Proof.
  cbv zeta. split; [reflexivity|].
  split; [apply replace_first_length|].
  split; [apply replace_first_occurrences; discriminate|].
  induction (event_type item) as [|x rest IH]; [reflexivity|].
  simpl replace_first.
  destruct (Ascii.eqb_spec x "_") as [-> | Hx].
  - simpl. lia.
  - simpl occurrences. rewrite IH.
    destruct (Ascii.eqb_spec x "_") as [-> | _]; [contradiction|].
    simpl. lia.
Qed.

End EventScreenFacts.

(** ** The number in a relative time *)

Section RelativeTimeNumberFacts.

Import Js EventLog.

Local Open Scope Z_scope.

Variable Date_getTime : string -> option Z.
Variable toLocaleDateString : option Z -> string.

Lemma floor_bounds (e k lo hi : Z) :
  0 < k -> lo * k <= e < hi * k ->
  lo <= e / k < hi /\ e / k * k <= e < (e / k + 1) * k.
Proof.
  intros Hk [Hlo Hhi].
  pose proof (Z.mul_div_le e k Hk).
  pose proof (Z.mul_succ_div_gt e k Hk).
  repeat split; try lia.
  - apply Z.div_le_lower_bound; lia.
  - apply Z.div_lt_upper_bound; lia.
Qed.

(** X16. From one minute to under seven days the text is a number and a unit,
    and the number is the elapsed time in that unit rounded down, never up
    and never zero: 1 to 59 minutes, 1 to 23 hours, 1 to 6 days. An event
    of 119 minutes ago reads "1h ago". *)
Theorem relative_time_rounds_down (now : Z) (timestamp : string) (t : Z) :
  Date_getTime timestamp = Some t ->
  60000 <= now - t < 604800000 ->
  let elapsed := now - t in
  let text := formatDateTime Date_getTime toLocaleDateString now timestamp in
  (exists N, 1 <= N <= 59 /\ N * 60000 <= elapsed < (N + 1) * 60000 /\
             text = number_to_string N +:+ "m ago") \/
  (exists N, 1 <= N <= 23 /\ N * 3600000 <= elapsed < (N + 1) * 3600000 /\
             text = number_to_string N +:+ "h ago") \/
  (exists N, 1 <= N <= 6 /\ N * 86400000 <= elapsed < (N + 1) * 86400000 /\
             text = number_to_string N +:+ "d ago").
Proof.
  intros Ht He elapsed text. subst text.
  rewrite (formatDateTime_elapsed Date_getTime toLocaleDateString
             now timestamp t Ht).
  fold elapsed. cbv zeta. fold elapsed in He.
  destruct (Z.ltb_spec elapsed 60000); [lia|].
  destruct (Z.ltb_spec elapsed 3600000).
  { left. exists (elapsed / 60000).
    destruct (floor_bounds elapsed 60000 1 60) as [? ?]; try lia.
    repeat split; try lia. }
  destruct (Z.ltb_spec elapsed 86400000).
  { right; left. exists (elapsed / 3600000).
    destruct (floor_bounds elapsed 3600000 1 24) as [? ?]; try lia.
    repeat split; try lia. }
  destruct (Z.ltb_spec elapsed 604800000); [|lia].
  right; right. exists (elapsed / 86400000).
  destruct (floor_bounds elapsed 86400000 1 7) as [? ?]; try lia.
  repeat split; try lia.
Qed.

End RelativeTimeNumberFacts.

(** ** The timer among other timers *)

Section TimerFrameFacts.

Import Timers.

Local Open Scope Z_scope.

Lemma rearm_fst (now : Z) (t : nat * Timer) : fst (rearm now t) = fst t.
Proof. unfold rearm. destruct (due (snd t) <=? now); reflexivity. Qed.

Lemma elapse_timer_ids (n : nat) (r : Runtime) :
  List.map fst (timers (elapse n r)) = List.map fst (timers r).
Proof.
  revert r; induction n as [|n IH]; intros r; simpl; [reflexivity|].
  rewrite IH. unfold tick; simpl. rewrite List.map_map.
  apply List.map_ext. intros t. apply rearm_fst.
Qed.

(** A runtime with one more timer at the end of its list runs as the
    runtime without it, as far as the other timers go. *)
Lemma elapse_one_more_timer (n : nat) (r1 r2 : Runtime) (i : nat)
    (t : Timer) :
  clock r1 = clock r2 ->
  timers r1 = (timers r2 ++ [(i, t)])%list ->
  exists t' : Timer,
    timers (elapse n r1) = (timers (elapse n r2) ++ [(i, t')])%list /\
    clock (elapse n r1) = clock (elapse n r2) /\
    cleanup (elapse n r1) = cleanup r1.
Proof.
  revert r1 r2 t; induction n as [|n IH]; intros r1 r2 t Hc Ht.
  - exists t. simpl. auto.
  - simpl elapse.
    destruct (IH (tick r1) (tick r2) (snd (rearm (clock r1 + 1) (i, t))))
      as (t' & H1 & H2 & H3).
    + unfold tick; simpl. now rewrite Hc.
    + unfold tick; simpl. rewrite Ht, List.map_app, Hc. simpl.
      f_equal. f_equal.
      rewrite <- Hc.
      pose proof (rearm_fst (clock r1 + 1) (i, t)) as Hf.
      destruct (rearm (clock r1 + 1) (i, t)) as [j u]; simpl in *.
      now subst j.
    + exists t'. repeat split; assumption.
Qed.

Lemma filter_out_last (l : list (nat * Timer)) (i : nat) (t : Timer) :
  Forall (fun x => (fst x < i)%nat) l ->
  List.filter (fun x => negb (Nat.eqb (fst x) i)) (l ++ [(i, t)]) = l.
Proof.
  intros H. rewrite List.filter_app; simpl. rewrite Nat.eqb_refl; simpl.
  rewrite app_nil_r.
  induction H as [|x l Hx Hl IH]; simpl; [reflexivity|].
  destruct (Nat.eqb_spec (fst x) i); [lia|]. simpl. now rewrite IH.
Qed.

(** X17. Tearing the home screen down cancels the timer the screen set and no
    other: in a runtime whose timers have ids below the next one to be
    given, after any time mounted the timers left by the teardown are the
    timers the runtime would have had without the screen. *)
Theorem unmount_cancels_own_timer_only (r : Runtime) (n : nat) :
  Forall (fun x => (fst x < next_id r)%nat) (timers r) ->
  let r' := unmount (elapse n (mount r)) in
  timers r' = timers (elapse n r) /\
  clock r' = clock (elapse n r) /\
  cleanup r' = None.
Proof.
  intros Hfresh.
  destruct (elapse_one_more_timer n (mount r) r (next_id r)
              (mkTimer FetchData 30000 (clock r + 30000)))
    as (t' & Ht & Hc & Hu); [reflexivity | reflexivity |].
  cbv zeta. unfold unmount. rewrite Hu. simpl.
  unfold clearInterval; simpl. rewrite Ht, Hc.
  repeat split.
  apply filter_out_last.
  apply List.Forall_forall. intros x Hx.
  assert (Hin : In (fst x) (List.map fst (timers (elapse n r)))).
  { apply List.in_map. exact Hx. }
  rewrite elapse_timer_ids in Hin.
  apply List.in_map_iff in Hin. destruct Hin as (y & Hy & Hyin).
  rewrite <- Hy.
  rewrite List.Forall_forall in Hfresh. exact (Hfresh y Hyin).
Qed.

End TimerFrameFacts.

(** ** The first fetch of the alert screen *)

Section AlertFirstFetchFacts.

Import Eff Api AlertScreen AlertDetails.

(** X12. After a fetch of the latest alert the screen shows the details of the
    alert held, or the view "No Active Alerts" when none is held. So when
    the first fetch is rejected the screen tells that there is no active
    alert, though no answer said so; and an alert received is shown with
    its acknowledge button whether or not its flag [acknowledged] is
    set. *)
Theorem fetchLatestAlert_then_render (net : Outcome (option Alert))
    (w : World State) :
  let w' := exec (fetchLatestAlert net) w in
  render (ui w') =
    match
      match net with
      | Fulfilled a => a
      | Rejected _ => alert (ui w)
      end
    with
    | Some a => DetailsView a (isEmergency a) (acknowledging (ui w))
    | None => NoAlertView
    end /\
  (forall e tr,
     render (ui (exec (fetchLatestAlert (Rejected e))
                      (mkWorld initial tr))) = NoAlertView) /\
  (forall a,
     has_acknowledge_button
       (render (ui (exec (fetchLatestAlert (Fulfilled (Some a))) w)))
     = true).
Proof.
  cbv zeta. unfold exec.
  split; [|split].
  - rewrite fetchLatestAlert_run. simpl. unfold render; simpl.
    destruct net as [[a|] | e]; try reflexivity.
  - intros e tr. reflexivity.
  - intros a. rewrite fetchLatestAlert_run. reflexivity.
Qed.

End AlertFirstFetchFacts.

(** ** Instances *)

Section FurtherInstances.

Import Js Eff Api.

Local Open Scope Z_scope.

Lemma fetchData_fulfilled_overwrites_witness :
  let s' :=
    ui (exec (Home.fetchData MoreSamples.all_fulfilled)
             (mkWorld
                (Home.mkState None None None true true) [])) in
  s' = ui (exec (Home.fetchData MoreSamples.all_fulfilled)
                Samples.home_calm) /\
  Home.res_status MoreSamples.all_fulfilled = Fulfilled (Home.status s') /\
  Home.res_connection MoreSamples.all_fulfilled =
    Fulfilled (Home.connection s') /\
  Home.res_alert MoreSamples.all_fulfilled =
    Fulfilled (Home.latestAlert s') /\
  Home.loading s' = false /\
  Home.refreshing s' = false.
Proof.
  exact (fetchData_fulfilled_overwrites MoreSamples.all_fulfilled
           (mkWorld (Home.mkState None None None true true) [])
           Samples.home_calm eq_refl).
Defined.

Lemma relative_time_rounds_down_witness :
  EventLog.formatDateTime Samples.epoch_getTime Samples.plain_date
    (119 * 60000) "1970-01-01T00:00:00Z" = "1h ago" /\
  ((exists N, 1 <= N <= 59 /\
              N * 60000 <= 119 * 60000 - 0 < (N + 1) * 60000 /\
              EventLog.formatDateTime Samples.epoch_getTime
                Samples.plain_date (119 * 60000) "1970-01-01T00:00:00Z" =
                number_to_string N +:+ "m ago") \/
   (exists N, 1 <= N <= 23 /\
              N * 3600000 <= 119 * 60000 - 0 < (N + 1) * 3600000 /\
              EventLog.formatDateTime Samples.epoch_getTime
                Samples.plain_date (119 * 60000) "1970-01-01T00:00:00Z" =
                number_to_string N +:+ "h ago") \/
   (exists N, 1 <= N <= 6 /\
              N * 86400000 <= 119 * 60000 - 0 < (N + 1) * 86400000 /\
              EventLog.formatDateTime Samples.epoch_getTime
                Samples.plain_date (119 * 60000) "1970-01-01T00:00:00Z" =
                number_to_string N +:+ "d ago")).
Proof.
  split; [reflexivity|].
  apply (relative_time_rounds_down Samples.epoch_getTime Samples.plain_date
           (119 * 60000) "1970-01-01T00:00:00Z" 0).
  - reflexivity.
  - lia.
Defined.

Lemma unmount_cancels_own_timer_only_witness :
  let r' :=
    Timers.unmount
      (Timers.elapse 5 (Timers.mount MoreSamples.busy_runtime)) in
  Timers.timers r' =
    Timers.timers (Timers.elapse 5 MoreSamples.busy_runtime) /\
  Timers.clock r' =
    Timers.clock (Timers.elapse 5 MoreSamples.busy_runtime) /\
  Timers.cleanup r' = None.
Proof.
  apply (unmount_cancels_own_timer_only MoreSamples.busy_runtime 5).
  repeat constructor.
Defined.

End FurtherInstances.
